(** * StepSync: the step-detection classifier of [PrecisionStepTracker]

    A shallow embedding of [src/StepSync/app.js]: the detection state, the
    classifier [detectStep], the recorder [recordStep] and the event handler
    [processMotionData], followed by the properties of the classifier; then
    the page around it (display, activity log, settings, permission status)
    and the properties of the whole handler set.

    Numbers.  Acceleration components and confidences are JavaScript
    Numbers, that is IEEE 754 binary64 values: they are embedded as the
    kernel's primitive [float], whose [+], [*], [sqrt], [abs] and [<?] are the
    binary64 operations (round to nearest even; quiet NaN; every comparison
    with NaN is false), so that [0.4 + 0.3] is rounded here exactly as the
    program rounds it; [Math.sqrt] is the correctly rounded square root, as
    JavaScript engines compute it.  A source comparison [a > b] is written
    [b <? a].
    The step counter is a Number too: [this.steps++] is the binary64 sum
    [steps + 1], which leaves a count of 2^53 as it is.
    Time values are what [Date.now()] returns: integral milliseconds, far
    inside the range where binary64 subtraction and comparison are exact;
    they are embedded as [Z], and so is the cooldown. *)

From Stdlib Require Import String.
From Stdlib Require Import ZArith List Bool Lia Floats.
Import ListNotations.

#[local] Set Warnings "-inexact-float".
#[local] Open Scope float_scope.

(** ** Data model *)

(** The [{ x, y, z }] objects of a [devicemotion] event and of the detection
    state (app.js:26-27, 69).  A component the sensor reports as [null]
    behaves as [+0] in every use [detectStep] makes of it. *)
Record Vec3 : Set := mkVec3 {
  vx : float;
  vy : float;
  vz : float
}.

(** The object pushed on [stepSignatures] (app.js:105-110). *)
Record StepSignature : Set := mkSignature {
  magnitude : float;
  verticalMovement : float;
  confidence : float;
  timestamp : Z
}.

(** [this.detectionState] (app.js:25-32). *)
Record DetectionState : Set := mkDetectionState {
  acceleration : Vec3;
  velocity : Vec3;
  lastPeakTime : Z;
  stepCooldown : Z;
  confidenceThreshold : float;
  stepSignatures : list StepSignature
}.

(** The part of a [PrecisionStepTracker] instance the classifier reads or
    writes: the step counter (app.js:19) and the detection state.  The DOM
    handles, the goal and weight settings and the persisted copy are written
    from [steps] and never read back by the classifier. *)
Record PrecisionStepTracker : Set := mkTracker {
  steps : float;
  detectionState : DetectionState
}.

(** A [devicemotion] event: either acceleration object may be [null]
    (app.js:65). *)
Record DeviceMotionEvent : Set := mkEvent {
  ev_acceleration : option Vec3;
  ev_accelerationIncludingGravity : option Vec3
}.

(** ** Construction (app.js:2-38) *)

Definition zeroVec : Vec3 := mkVec3 0 0 0.

Definition initialDetectionState : DetectionState :=
  {| acceleration := zeroVec;
     velocity := zeroVec;
     lastPeakTime := 0%Z;
     stepCooldown := 250%Z;
     confidenceThreshold := 0.7;
     stepSignatures := [] |}.

(** [v || d] for a Number read from parsed JSON, [None] standing for [null]
    or a missing property: [d] when [v] is [null], missing, zero or NaN. *)
Definition orDefault (v : option float) (d : float) : float :=
  match v with
  | Some f => if is_zero f || is_nan f then d else f
  | None => d
  end.

(** [new PrecisionStepTracker()]: [steps] is 0, or what [loadSettings] makes
    of the count it finds in storage ([settings.steps || 0], app.js:217). *)
Definition newTracker (savedSteps : option float) : PrecisionStepTracker :=
  {| steps := orDefault savedSteps 0;
     detectionState := initialDetectionState |}.

(** ** [detectStep] (app.js:80-119) *)

Definition movementThreshold : float := 9.8.

(** app.js:84 *)
Definition magnitudeOf (x y z : float) : float := sqrt (x * x + y * y + z * z).

(** app.js:88 *)
Definition timeSinceLastStep (state : DetectionState) (currentTime : Z) : Z :=
  (currentTime - lastPeakTime state)%Z.

(** app.js:91 *)
Definition isSignificantMovement (x y z : float) : bool :=
  movementThreshold <? magnitudeOf x y z.

(** app.js:92 *)
Definition isValidStepInterval (state : DetectionState) (currentTime : Z) : bool :=
  (stepCooldown state <? timeSinceLastStep state currentTime)%Z.

(** app.js:95-96 *)
Definition verticalMovementOf (y : float) : float := abs y.

Definition isVerticalStep (y : float) : bool := 6 <? verticalMovementOf y.

(** app.js:99-102 *)
Definition confidenceOf (state : DetectionState) (x y z : float) (currentTime : Z)
  : float :=
  let confidence := 0 in
  let confidence := confidence + (if isSignificantMovement x y z then 0.4 else 0) in
  let confidence := confidence + (if isValidStepInterval state currentTime then 0.3 else 0) in
  let confidence := confidence + (if isVerticalStep y then 0.3 else 0) in
  confidence.

(** The signature object of app.js:105-110. *)
Definition signatureOf (state : DetectionState) (x y z : float) (currentTime : Z)
  : StepSignature :=
  {| magnitude := magnitudeOf x y z;
     verticalMovement := verticalMovementOf y;
     confidence := confidenceOf state x y z currentTime;
     timestamp := currentTime |}.

(** [push] then, when more than ten entries are held, [shift]
    (app.js:105-115). *)
Definition pushSignature (sigs : list StepSignature) (s : StepSignature)
  : list StepSignature :=
  let sigs := sigs ++ [s] in
  if (10 <? length sigs)%nat then tl sigs else sigs.

Definition setSignatures (state : DetectionState) (sigs : list StepSignature)
  : DetectionState :=
  {| acceleration := acceleration state;
     velocity := velocity state;
     lastPeakTime := lastPeakTime state;
     stepCooldown := stepCooldown state;
     confidenceThreshold := confidenceThreshold state;
     stepSignatures := sigs |}.

Definition setLastPeakTime (state : DetectionState) (t : Z) : DetectionState :=
  {| acceleration := acceleration state;
     velocity := velocity state;
     lastPeakTime := t;
     stepCooldown := stepCooldown state;
     confidenceThreshold := confidenceThreshold state;
     stepSignatures := stepSignatures state |}.

(** The returned pair is the boolean [detectStep] returns and the detection
    state it leaves behind. *)
Definition detectStep (state : DetectionState) (x y z : float) (currentTime : Z)
  : bool * DetectionState :=
  let confidence := confidenceOf state x y z currentTime in
  let state' :=
    setSignatures state
      (pushSignature (stepSignatures state) (signatureOf state x y z currentTime)) in
  ((confidenceThreshold state <? confidence)
     && isValidStepInterval state currentTime,
   state').

(** ** [recordStep] (app.js:121-133)

    [now] is the value its own [Date.now()] call returns; [this.steps++]
    stores the binary64 sum [steps + 1]. *)
Definition recordStep (tracker : PrecisionStepTracker) (now : Z)
  : PrecisionStepTracker :=
  {| steps := steps tracker + 1;
     detectionState := setLastPeakTime (detectionState tracker) now |}.

(** ** [processMotionData] (app.js:64-78)

    The handler reads the clock twice: [currentTime] is the reading of
    app.js:70, which stamps the sample, and [recordTime] is the reading
    [recordStep] takes at app.js:122 when the step is detected. *)
Definition eventAcceleration (event : DeviceMotionEvent) : option Vec3 :=
  match ev_acceleration event with
  | Some a => Some a
  | None => ev_accelerationIncludingGravity event
  end.

Definition processMotionData (tracker : PrecisionStepTracker)
    (event : DeviceMotionEvent) (currentTime recordTime : Z)
  : PrecisionStepTracker :=
  match eventAcceleration event with
  | None => tracker
  | Some a =>
      let (stepDetected, state') :=
        detectStep (detectionState tracker) (vx a) (vy a) (vz a) currentTime in
      let tracker' := {| steps := steps tracker; detectionState := state' |} in
      if stepDetected then recordStep tracker' recordTime else tracker'
  end.

(** The click handler of the manual button (app.js:168-172). *)
Definition manualStep (tracker : PrecisionStepTracker) : PrecisionStepTracker :=
  {| steps := steps tracker + 1; detectionState := detectionState tracker |}.

(** ** Executions *)

(** What the page delivers to a tracker: a motion event together with the
    clock readings of its handler, or a click on the manual button.  The
    goal and weight buttons leave [steps] and the detection state alone. *)
Inductive Input : Set :=
| Motion (event : DeviceMotionEvent) (currentTime recordTime : Z)
| ManualClick.

Definition handle (tracker : PrecisionStepTracker) (i : Input)
  : PrecisionStepTracker :=
  match i with
  | Motion event currentTime recordTime =>
      processMotionData tracker event currentTime recordTime
  | ManualClick => manualStep tracker
  end.

Definition run (tracker : PrecisionStepTracker) (inputs : list Input)
  : PrecisionStepTracker :=
  fold_left handle inputs tracker.

Inductive reachable : PrecisionStepTracker -> Prop :=
| reachable_new : forall saved, reachable (newTracker saved)
| reachable_handle : forall tracker i,
    reachable tracker -> reachable (handle tracker i).

(** Whether the handler, run on [event] stamped [currentTime], calls
    [recordStep]. *)
Definition stepDetected (tracker : PrecisionStepTracker)
    (event : DeviceMotionEvent) (currentTime : Z) : bool :=
  match eventAcceleration event with
  | None => false
  | Some a =>
      fst (detectStep (detectionState tracker) (vx a) (vy a) (vz a) currentTime)
  end.

(** A motion event carrying the sample [(x, y, z)]. *)
Definition sampleEvent (x y z : float) : DeviceMotionEvent :=
  mkEvent (Some (mkVec3 x y z)) None.

(** The signatures the handler pushes along an execution, oldest first. *)
Fixpoint signaturesOf (tracker : PrecisionStepTracker) (inputs : list Input)
  : list StepSignature :=
  match inputs with
  | [] => []
  | i :: rest =>
      match i with
      | Motion event currentTime _ =>
          match eventAcceleration event with
          | Some a =>
              [signatureOf (detectionState tracker) (vx a) (vy a) (vz a) currentTime]
          | None => []
          end
      | ManualClick => []
      end ++ signaturesOf (handle tracker i) rest
  end.

(** The last [n] elements of a list. *)
Definition lastn {A : Type} (n : nat) (l : list A) : list A :=
  skipn (length l - n) l.

(** The readings of one handler call do not run backwards. *)
Definition clockOrdered (i : Input) : Prop :=
  match i with
  | Motion _ currentTime recordTime => (currentTime <= recordTime)%Z
  | ManualClick => True
  end.

(** The configuration the constructor installs; no method writes it. *)
Definition defaultConfig (state : DetectionState) : Prop :=
  stepCooldown state = 250%Z /\ confidenceThreshold state = 0.7.

(** A binary64 value, in the form the specification of the primitive
    operations uses, that is neither NaN nor negative: what a square, or a
    sum of squares, of values other than NaN can be. *)
Definition nonnegSF (s : spec_float) : Prop :=
  match s with
  | S754_nan => False
  | S754_zero _ => True
  | S754_infinity b | S754_finite b _ _ => b = false
  end.

(** Some component of the sample is NaN; some component is infinite. *)
Definition hasNaN (x y z : float) : bool := is_nan x || is_nan y || is_nan z.

Definition hasInfinity (x y z : float) : bool :=
  is_infinity x || is_infinity y || is_infinity z.

(** ** The page around the classifier *)

(** *** Numbers of the page *)

(** [Math.min] of two Numbers: NaN if either is NaN, else the smaller, with
    [-0] below [+0]. *)
Definition mathMin (a b : float) : float :=
  if is_nan a || is_nan b then nan
  else if a <? b then a
  else if b <? a then b
  else if get_sign a then a else b.

(** What [JSON.parse] reads back for a Number [JSON.stringify] wrote: [null]
    for NaN and the infinities, the same Number otherwise ([-0] is written
    [0]). *)
Definition jsonNumber (f : float) : option float :=
  if is_nan f || is_infinity f then None
  else Some (if is_zero f then 0 else f).

(** *** State of the page *)

(** What [JSON.parse] makes of a stored text, as far as [loadSettings] looks
    at it: the three properties it reads, each a Number, or [None] for
    [null] or a missing property.  [saveSettings] writes such an object
    (app.js:206-210); a parsed value without these properties (a number, a
    string, an empty object) has all three [None]. *)
Record Settings : Set := mkSettings {
  saved_steps : option float;
  saved_dailyGoal : option float;
  saved_userWeight : option float
}.

(** The item under the key ['stepTrackerSettings']: a store whose access
    throws; no item (or the empty text); a text [JSON.parse] rejects; the
    text [null]; a text that parses to a value other than [null]. *)
Inductive StoredItem : Set :=
| StorageUnreadable
| NoItem
| MalformedText
| NullText
| SettingsText (settings : Settings).

(** How a call ends: it returns, or an exception leaves it. *)
Inductive Completion : Set :=
| Returned
| Threw.

(** What [updateDisplay] shows: the step count (app.js:137) and the progress
    percentage behind the bar and its label (app.js:148-150).  The distance
    and calorie texts, which go through [toFixed] and [Math.round], are not
    part of the embedding. *)
Record Display : Set := mkDisplay {
  stepCount : float;
  progressPercentage : float
}.

(** A child of the [permissionStatus] element: a text node, the button
    [setupEventListeners] creates, or a node of the page's own markup. *)
Inductive PanelNode : Set :=
| StatusText (message : string)
| ManualStepButton
| MarkupNode (n : nat).

(** A tracker instance with the page and the storage it acts on.  The
    page's markup is taken to hold the elements the constructor looks up
    (app.js:4-16).  [display] is [None] while [updateDisplay] has not run; [activityLog]
    lists the texts of the log's items, first child first;
    [motionListener] tells whether [processMotionData] is registered for
    [devicemotion]; [permissionPending] tells whether the promise of
    [requestPermission] is still unsettled. *)
Record App : Set := mkApp {
  app_tracker : PrecisionStepTracker;
  dailyGoal : float;
  userWeight : float;
  display : option Display;
  activityLog : list string;
  permissionStatus : list PanelNode;
  motionListener : bool;
  permissionPending : bool;
  storage : StoredItem
}.

Definition withTracker (app : App) (t : PrecisionStepTracker) : App :=
  mkApp t (dailyGoal app) (userWeight app) (display app) (activityLog app)
    (permissionStatus app) (motionListener app) (permissionPending app)
    (storage app).

Definition withDailyGoal (app : App) (g : float) : App :=
  mkApp (app_tracker app) g (userWeight app) (display app) (activityLog app)
    (permissionStatus app) (motionListener app) (permissionPending app)
    (storage app).

Definition withUserWeight (app : App) (w : float) : App :=
  mkApp (app_tracker app) (dailyGoal app) w (display app) (activityLog app)
    (permissionStatus app) (motionListener app) (permissionPending app)
    (storage app).

Definition withDisplay (app : App) (d : option Display) : App :=
  mkApp (app_tracker app) (dailyGoal app) (userWeight app) d (activityLog app)
    (permissionStatus app) (motionListener app) (permissionPending app)
    (storage app).

Definition withActivityLog (app : App) (l : list string) : App :=
  mkApp (app_tracker app) (dailyGoal app) (userWeight app) (display app) l
    (permissionStatus app) (motionListener app) (permissionPending app)
    (storage app).

Definition withPermissionStatus (app : App) (nodes : list PanelNode) : App :=
  mkApp (app_tracker app) (dailyGoal app) (userWeight app) (display app)
    (activityLog app) nodes (motionListener app) (permissionPending app)
    (storage app).

Definition withMotionListener (app : App) (b : bool) : App :=
  mkApp (app_tracker app) (dailyGoal app) (userWeight app) (display app)
    (activityLog app) (permissionStatus app) b (permissionPending app)
    (storage app).

Definition withPermissionPending (app : App) (b : bool) : App :=
  mkApp (app_tracker app) (dailyGoal app) (userWeight app) (display app)
    (activityLog app) (permissionStatus app) (motionListener app) b
    (storage app).

Definition withStorage (app : App) (s : StoredItem) : App :=
  mkApp (app_tracker app) (dailyGoal app) (userWeight app) (display app)
    (activityLog app) (permissionStatus app) (motionListener app)
    (permissionPending app) s.

(** *** [updateDisplay] (app.js:135-151) *)

(** app.js:148 *)
Definition progressOf (steps dailyGoal : float) : float :=
  mathMin (steps / dailyGoal * 100) 100.

Definition updateDisplay (app : App) : App :=
  withDisplay app
    (Some {| stepCount := steps (app_tracker app);
             progressPercentage :=
               progressOf (steps (app_tracker app)) (dailyGoal app) |}).

(** *** [logActivity] (app.js:153-162)

    [timeString] is what [new Date().toLocaleTimeString()] returns. *)
Definition logActivity (app : App) (timeString message : string) : App :=
  let items := (timeString ++ ": " ++ message)%string :: activityLog app in
  withActivityLog app
    (if (10 <? length items)%nat then removelast items else items).

(** *** [saveSettings] and [loadSettings] (app.js:205-226) *)

(** On a store whose access throws, the call throws before anything is
    written and the store stays as it is; the call is the last statement of
    each of its callers, so nothing else is left undone. *)
Definition saveSettings (app : App) : App :=
  withStorage app
    match storage app with
    | StorageUnreadable => StorageUnreadable
    | _ =>
        SettingsText
          {| saved_steps := jsonNumber (steps (app_tracker app));
             saved_dailyGoal := jsonNumber (dailyGoal app);
             saved_userWeight := jsonNumber (userWeight app) |}
    end.

(** The call throws, before it has assigned anything, when the store cannot
    be read (app.js:214), when [JSON.parse] rejects the text (app.js:216) and
    when the text parses to [null], whose property [steps] cannot be read
    (app.js:217). *)
Definition loadSettings (app : App) : Completion * App :=
  match storage app with
  | StorageUnreadable | MalformedText | NullText => (Threw, app)
  | NoItem => (Returned, app)
  | SettingsText settings =>
      let app :=
        withTracker app
          (mkTracker (orDefault (saved_steps settings) 0)
             (detectionState (app_tracker app))) in
      let app := withDailyGoal app (orDefault (saved_dailyGoal settings) 10000) in
      let app := withUserWeight app (orDefault (saved_userWeight settings) 70) in
      (Returned, updateDisplay app)
  end.

(** *** [recordStep] with its reporting (app.js:121-133) *)

Definition appRecordStep (app : App) (now : Z) (timeString : string) : App :=
  let app := withTracker app (recordStep (app_tracker app) now) in
  let app := updateDisplay app in
  let app := logActivity app timeString "Step detected" in
  saveSettings app.

(** *** [processMotionData] on the page (app.js:64-78) *)

Definition appProcessMotionData (app : App) (event : DeviceMotionEvent)
    (currentTime recordTime : Z) (timeString : string) : App :=
  match eventAcceleration event with
  | None => app
  | Some a =>
      let (stepDetected, state') :=
        detectStep (detectionState (app_tracker app)) (vx a) (vy a) (vz a)
          currentTime in
      let app' :=
        withTracker app (mkTracker (steps (app_tracker app)) state') in
      if stepDetected then appRecordStep app' recordTime timeString else app'
  end.

(** *** The click handlers of [setupEventListeners] (app.js:164-194) *)

(** app.js:168-172 *)
Definition appManualStep (app : App) (timeString : string) : App :=
  let app := withTracker app (manualStep (app_tracker app)) in
  let app := updateDisplay app in
  logActivity app timeString "Manual step added".

(** app.js:176-183; [newGoal] is what [parseInt] made of the input field. *)
Definition setGoal (app : App) (newGoal : float) : App :=
  if 0 <? newGoal
  then saveSettings (updateDisplay (withDailyGoal app newGoal))
  else app.

(** app.js:186-193; [newWeight] is what [parseFloat] made of the input
    field. *)
Definition setWeight (app : App) (newWeight : float) : App :=
  if 0 <? newWeight
  then saveSettings (updateDisplay (withUserWeight app newWeight))
  else app.

(** app.js:166-173: the manual button becomes the last child of the status
    element. *)
Definition setupEventListeners (app : App) : App :=
  withPermissionStatus app (permissionStatus app ++ [ManualStepButton]).

(** *** Permission status (app.js:40-62, 196-203) *)

(** Assigning [textContent] replaces every child of the element by one text
    node, or by nothing when the text is empty. *)
Definition updatePermissionStatus (app : App) (message : string) : App :=
  withPermissionStatus app
    (if String.eqb message "" then [] else [StatusText message]).

(** The [alert] of app.js:202 changes nothing of the page. *)
Definition fallbackManualTracking (app : App) : App :=
  updatePermissionStatus app "Automatic Tracking Unavailable".

(** What the browser offers: no [DeviceMotionEvent], motion events, or
    motion events behind [DeviceMotionEvent.requestPermission]. *)
Inductive MotionSupport : Set :=
| NoDeviceMotion
| MotionEvents
| MotionEventsOnRequest.

(** How the promise of [requestPermission] settles: fulfilled with
    ['granted'], fulfilled with anything else, or rejected. *)
Inductive PermissionResponse : Set :=
| Granted
| NotGranted
| RequestFailed.

Definition initializeMotionTracking (app : App) (support : MotionSupport) : App :=
  match support with
  | MotionEventsOnRequest => withPermissionPending app true
  | MotionEvents =>
      updatePermissionStatus (withMotionListener app true)
        "Motion Tracking: Active"
  | NoDeviceMotion => fallbackManualTracking app
  end.

(** The [then] and [catch] callbacks of app.js:45-53. *)
Definition settlePermission (app : App) (response : PermissionResponse) : App :=
  let app := withPermissionPending app false in
  match response with
  | Granted =>
      updatePermissionStatus (withMotionListener app true)
        "Motion Tracking: Enabled"
  | NotGranted => updatePermissionStatus app "Motion Tracking: Permission Denied"
  | RequestFailed => app
  end.

(** *** The constructor (app.js:2-38) and the page's executions *)

(** [markup] and [logItems] are the children the page's markup gives the
    status element and the activity log; [stored] is the item in storage.
    When [loadSettings] throws, the constructor is left at app.js:36:
    [initializeMotionTracking] does not run, and the handlers that
    [setupEventListeners] registered keep the instance alive. *)
Definition newApp (markup : list nat) (logItems : list string)
    (stored : StoredItem) (support : MotionSupport) : App :=
  let app :=
    {| app_tracker := mkTracker 0 initialDetectionState;
       dailyGoal := 10000;
       userWeight := 70;
       display := None;
       activityLog := logItems;
       permissionStatus := map MarkupNode markup;
       motionListener := false;
       permissionPending := false;
       storage := stored |} in
  let app := setupEventListeners app in
  match loadSettings app with
  | (Returned, app) => initializeMotionTracking app support
  | (Threw, app) => app
  end.

Definition isManualStepButton (node : PanelNode) : bool :=
  match node with
  | ManualStepButton => true
  | _ => false
  end.

(** What can happen to the page: a motion event, with the clock readings
    and the time text its handler obtains; a click on the manual button, on
    the goal button or on the weight button, with what the handler parses
    from the field; the settling of the permission request. *)
Inductive AppInput : Set :=
| DeviceMotion (event : DeviceMotionEvent) (currentTime recordTime : Z)
    (timeString : string)
| ManualButtonClick (timeString : string)
| SetGoalClick (newGoal : float)
| SetWeightClick (newWeight : float)
| PermissionSettled (response : PermissionResponse).

(** A motion event reaches the handler only when it is registered, a click
    reaches the manual button only while it is a child of the status element,
    and the permission request settles once. *)
Definition handleApp (app : App) (i : AppInput) : App :=
  match i with
  | DeviceMotion event currentTime recordTime timeString =>
      if motionListener app
      then appProcessMotionData app event currentTime recordTime timeString
      else app
  | ManualButtonClick timeString =>
      if existsb isManualStepButton (permissionStatus app)
      then appManualStep app timeString
      else app
  | SetGoalClick newGoal => setGoal app newGoal
  | SetWeightClick newWeight => setWeight app newWeight
  | PermissionSettled response =>
      if permissionPending app then settlePermission app response else app
  end.

Definition runApp (app : App) (inputs : list AppInput) : App :=
  fold_left handleApp inputs app.

(** The input of the classifier model a page input amounts to, if any. *)
Definition trackerInput (app : App) (i : AppInput) : list Input :=
  match i with
  | DeviceMotion event currentTime recordTime _ =>
      if motionListener app then [Motion event currentTime recordTime] else []
  | ManualButtonClick _ =>
      if existsb isManualStepButton (permissionStatus app)
      then [ManualClick] else []
  | _ => []
  end.

Fixpoint trackerInputs (app : App) (inputs : list AppInput) : list Input :=
  match inputs with
  | [] => []
  | i :: rest => trackerInput app i ++ trackerInputs (handleApp app i) rest
  end.

(** *** Notions used by the properties *)

(** Whether [loadSettings] throws on a stored item, and the count it
    reads from one on which it does not. *)
Definition loadThrows (stored : StoredItem) : bool :=
  match stored with
  | StorageUnreadable | MalformedText | NullText => true
  | NoItem | SettingsText _ => false
  end.

Definition storedSteps (stored : StoredItem) : option float :=
  match stored with
  | SettingsText settings => saved_steps settings
  | _ => None
  end.

(** The motion events of an execution on which a step is detected. *)
Fixpoint detectedSteps (tracker : PrecisionStepTracker) (inputs : list Input)
  : nat :=
  match inputs with
  | [] => 0
  | i :: rest =>
      match i with
      | Motion event currentTime _ =>
          if stepDetected tracker event currentTime then 1 else 0
      | ManualClick => 0
      end + detectedSteps (handle tracker i) rest
  end.

(** [k] executions of [this.steps++] on a count. *)
Definition incremented (k : nat) (count : float) : float :=
  Nat.iter k (fun c => c + 1) count.


(** The manual button is a child of the status element. *)
Definition manualButtonShown (app : App) : bool :=
  existsb isManualStepButton (permissionStatus app).

(** How the permission request settled, if it has: the first settlement
    among the inputs. *)
Fixpoint firstSettlement (inputs : list AppInput) : option PermissionResponse :=
  match inputs with
  | [] => None
  | PermissionSettled response :: _ => Some response
  | _ :: rest => firstSettlement rest
  end.

(** The text an input adds to the activity log, if any. *)
Definition loggedItem (app : App) (i : AppInput) : list string :=
  match i with
  | DeviceMotion event currentTime _ timeString =>
      if motionListener app && stepDetected (app_tracker app) event currentTime
      then [(timeString ++ ": " ++ "Step detected")%string] else []
  | ManualButtonClick timeString =>
      if existsb isManualStepButton (permissionStatus app)
      then [(timeString ++ ": " ++ "Manual step added")%string] else []
  | _ => []
  end.

(** The texts an execution logs, in the order it logs them. *)
Fixpoint loggedItems (app : App) (inputs : list AppInput) : list string :=
  match inputs with
  | [] => []
  | i :: rest => loggedItem app i ++ loggedItems (handleApp app i) rest
  end.

(** The number of manual clicks among classifier inputs. *)
Fixpoint manualClicks (inputs : list Input) : nat :=
  match inputs with
  | [] => 0
  | ManualClick :: rest => S (manualClicks rest)
  | Motion _ _ _ :: rest => manualClicks rest
  end.

(** Two trackers that count alike: same step count, same last peak, same
    configuration; their signature histories are free. *)
Definition sameCounting (t1 t2 : PrecisionStepTracker) : Prop :=
  steps t1 = steps t2
  /\ lastPeakTime (detectionState t1) = lastPeakTime (detectionState t2)
  /\ stepCooldown (detectionState t1) = stepCooldown (detectionState t2)
  /\ confidenceThreshold (detectionState t1)
     = confidenceThreshold (detectionState t2).

(** A stored signature in range: one of the six confidences the weights can
    add up to, and no negative magnitude or vertical movement. *)
Definition signatureInRange (s : StepSignature) : Prop :=
  In (confidence s) [0; 0.3; 0.4; 0.6; 0.7; 1]
  /\ (magnitude s <? 0) = false
  /\ (verticalMovement s <? 0) = false.

(** ** The confidence formula as the specification words it *)

(** Each indicator contributes its weight when true, else 0. *)
Definition indicator (w : float) (b : bool) : float := if b then w else 0.

Definition specConfidence (x y z : float) (t lastPeakTimestamp : Z) : float :=
  indicator 0.4 (9.8 <? sqrt (x * x + y * y + z * z))
  + indicator 0.3 (250 <? t - lastPeakTimestamp)%Z
  + indicator 0.3 (6.0 <? abs y).

(** ** Basic facts about the embedding *)

Lemma detectStep_fst state x y z t :
  fst (detectStep state x y z t)
  = (confidenceThreshold state <? confidenceOf state x y z t)
    && isValidStepInterval state t.
Proof. reflexivity. Qed.

Lemma detectStep_snd state x y z t :
  snd (detectStep state x y z t)
  = setSignatures state
      (pushSignature (stepSignatures state) (signatureOf state x y z t)).
Proof. reflexivity. Qed.

Lemma isValidStepInterval_spec state t :
  isValidStepInterval state t = true
  <-> (stepCooldown state < t - lastPeakTime state)%Z.
Proof. unfold isValidStepInterval, timeSinceLastStep. apply Z.ltb_lt. Qed.

(** The eight values the running sum of app.js:99-102 can take. *)
Lemma confidence_sum (a b c : bool) :
  0 + (if a then 0.4 else 0) + (if b then 0.3 else 0) + (if c then 0.3 else 0)
  = indicator 0.4 a + indicator 0.3 b + indicator 0.3 c.
Proof. destruct a, b, c; reflexivity. Qed.

(** Against the threshold 0.7, and with the interval test applied besides,
    only the full sum passes: [0.4 + 0.3] rounds to the binary64 value of
    [0.7], which is not above it. *)
Lemma threshold_table (a b c : bool) :
  (0.7 <? 0 + (if a then 0.4 else 0) + (if b then 0.3 else 0)
          + (if c then 0.3 else 0)) && b
  = a && b && c.
Proof. destruct a, b, c; reflexivity. Qed.

Lemma accepted_sum (a b c : bool) :
  a && b && c = true ->
  0 + (if a then 0.4 else 0) + (if b then 0.3 else 0) + (if c then 0.3 else 0) = 1.
Proof. destruct a, b, c; try discriminate; reflexivity. Qed.

(** *** Invariants of reachable trackers *)

Lemma pushSignature_length sigs s :
  (length sigs <= 10)%nat -> (length (pushSignature sigs s) <= 10)%nat.
Proof.
  intros Hlen. unfold pushSignature.
  destruct (Nat.ltb_spec 10 (length (sigs ++ [s]))) as [Hgt | Hle].
  - destruct (sigs ++ [s]) as [| s0 l] eqn:E; simpl in *; [lia |].
    assert (length (sigs ++ [s]) = S (length l)) as Hl by (rewrite E; reflexivity).
    rewrite length_app in Hl. simpl in Hl. lia.
  - exact Hle.
Qed.

Lemma processMotionData_config tracker event t tRec :
  let tracker' := processMotionData tracker event t tRec in
  stepCooldown (detectionState tracker') = stepCooldown (detectionState tracker)
  /\ confidenceThreshold (detectionState tracker')
     = confidenceThreshold (detectionState tracker).
Proof.
  unfold processMotionData. destruct (eventAcceleration event) as [a |]; [| auto].
  unfold detectStep.
  destruct ((confidenceThreshold _ <? _) && _); simpl; auto.
Qed.

Lemma processMotionData_length tracker event t tRec :
  (length (stepSignatures (detectionState tracker)) <= 10)%nat ->
  (length (stepSignatures
             (detectionState (processMotionData tracker event t tRec))) <= 10)%nat.
Proof.
  intros Hlen. unfold processMotionData.
  destruct (eventAcceleration event) as [a |]; [| exact Hlen].
  unfold detectStep.
  destruct ((confidenceThreshold _ <? _) && _); simpl;
    apply pushSignature_length; exact Hlen.
Qed.

Lemma reachable_defaultConfig tracker :
  reachable tracker -> defaultConfig (detectionState tracker).
Proof.
  induction 1 as [saved | tracker i _ [Hc Ht]].
  - split; reflexivity.
  - destruct i as [event t tRec |]; simpl.
    + destruct (processMotionData_config tracker event t tRec) as [Hc' Ht'].
      split; congruence.
    + split; assumption.
Qed.

Lemma reachable_length tracker :
  reachable tracker ->
  (length (stepSignatures (detectionState tracker)) <= 10)%nat.
Proof.
  induction 1 as [saved | tracker i _ IH].
  - simpl. lia.
  - destruct i as [event t tRec |]; simpl.
    + apply processMotionData_length, IH.
    + exact IH.
Qed.

Lemma reachable_run tracker inputs :
  reachable tracker -> reachable (run tracker inputs).
Proof.
  revert tracker. induction inputs as [| i rest IH]; intros tracker Hr.
  - exact Hr.
  - simpl. apply IH. constructor. exact Hr.
Qed.

Lemma processMotionData_sample tracker event x y z t tRec :
  eventAcceleration event = Some (mkVec3 x y z) ->
  processMotionData tracker event t tRec
  = let tracker' :=
      {| steps := steps tracker;
         detectionState := snd (detectStep (detectionState tracker) x y z t) |} in
    if fst (detectStep (detectionState tracker) x y z t)
    then recordStep tracker' tRec else tracker'.
Proof. intros E. unfold processMotionData. rewrite E. reflexivity. Qed.

(** With the configuration of the constructor the decision is the conjunction
    of the three tests. *)
Lemma reachable_decision tracker x y z t :
  reachable tracker ->
  fst (detectStep (detectionState tracker) x y z t)
  = isSignificantMovement x y z
    && isValidStepInterval (detectionState tracker) t
    && isVerticalStep y.
Proof.
  intros Hr. destruct (reachable_defaultConfig tracker Hr) as [_ Ht].
  rewrite detectStep_fst, Ht. unfold confidenceOf. cbv zeta.
  apply threshold_table.
Qed.

(** ** The decision *)

(** C1. In every reachable state, a processed sample makes the handler record
    a step exactly when the computed confidence is strictly above 0.7 and the
    time since the last peak is strictly above 250 ms: then [recordStep] runs
    and the counter becomes the binary64 sum [steps + 1]; otherwise
    [recordStep] is not called and the step counter stays as it was. *)
Theorem step_recorded_iff_confident_and_interval :
  forall tracker event x y z t tRec,
    reachable tracker ->
    eventAcceleration event = Some (mkVec3 x y z) ->
    let state := detectionState tracker in
    let accept :=
      (0.7 <? confidenceOf state x y z t) && (250 <? t - lastPeakTime state)%Z in
    fst (detectStep state x y z t) = accept
    /\ stepDetected tracker event t = accept
    /\ steps (processMotionData tracker event t tRec)
       = (if accept then steps tracker + 1 else steps tracker).
Proof.
  intros tracker event x y z t tRec Hr He state accept.
  destruct (reachable_defaultConfig tracker Hr) as [Hc Ht].
  assert (fst (detectStep state x y z t) = accept) as Hd.
  { rewrite detectStep_fst. unfold isValidStepInterval, timeSinceLastStep.
    subst state accept. rewrite Hc, Ht. reflexivity. }
  split; [exact Hd |]. split.
  - unfold stepDetected. rewrite He. exact Hd.
  - rewrite (processMotionData_sample _ _ _ _ _ _ _ He). fold state.
    rewrite Hd. destruct accept; reflexivity.
Qed.

Lemma step_recorded_iff_confident_and_interval_witness :
  let tracker := newTracker None in
  let state := detectionState tracker in
  let accept :=
    (0.7 <? confidenceOf state 0 10 9.9 1000) && (250 <? 1000 - lastPeakTime state)%Z in
  fst (detectStep state 0 10 9.9 1000) = accept
  /\ stepDetected tracker (sampleEvent 0 10 9.9) 1000 = accept
  /\ steps (processMotionData tracker (sampleEvent 0 10 9.9) 1000 1000)
     = (if accept then steps tracker + 1 else steps tracker).
Proof.
  apply (step_recorded_iff_confident_and_interval
           (newTracker None) (sampleEvent 0 10 9.9) 0 10 9.9 1000%Z 1000%Z).
  - apply reachable_new.
  - reflexivity.
Defined.

(** C10. With the weights and the threshold the program hard-codes, a sample
    is accepted exactly when the three predicates hold together; an accepted
    sample has confidence exactly 1, and no two of the predicates are enough. *)
Theorem accepted_iff_all_three_predicates :
  forall tracker x y z t,
    reachable tracker ->
    let state := detectionState tracker in
    fst (detectStep state x y z t)
    = isSignificantMovement x y z && isValidStepInterval state t && isVerticalStep y
    /\ (fst (detectStep state x y z t) = true -> confidenceOf state x y z t = 1).
Proof.
  intros tracker x y z t Hr state.
  pose proof (reachable_decision tracker x y z t Hr) as Hd. fold state in Hd.
  split; [exact Hd |].
  rewrite Hd. intros Hall. unfold confidenceOf. cbv zeta.
  apply accepted_sum. exact Hall.
Qed.

Lemma accepted_iff_all_three_predicates_witness :
  let state := detectionState (newTracker None) in
  fst (detectStep state 0 10 9.9 1000)
  = isSignificantMovement 0 10 9.9 && isValidStepInterval state 1000
    && isVerticalStep 10
  /\ (fst (detectStep state 0 10 9.9 1000) = true ->
      confidenceOf state 0 10 9.9 1000 = 1).
Proof.
  apply (accepted_iff_all_three_predicates (newTracker None) 0 10 9.9 1000%Z).
  apply reachable_new.
Defined.

(** C8. Two detection states that agree on [lastPeakTime], [stepCooldown] and
    [confidenceThreshold] give the same confidence and the same decision for
    the same sample, whatever their signature histories hold. *)
Theorem decision_independent_of_history :
  forall s1 s2 x y z t,
    lastPeakTime s1 = lastPeakTime s2 ->
    stepCooldown s1 = stepCooldown s2 ->
    confidenceThreshold s1 = confidenceThreshold s2 ->
    confidenceOf s1 x y z t = confidenceOf s2 x y z t
    /\ fst (detectStep s1 x y z t) = fst (detectStep s2 x y z t).
Proof.
  intros s1 s2 x y z t Hp Hc Ht.
  assert (isValidStepInterval s1 t = isValidStepInterval s2 t) as Hv.
  { unfold isValidStepInterval, timeSinceLastStep. rewrite Hp, Hc. reflexivity. }
  assert (confidenceOf s1 x y z t = confidenceOf s2 x y z t) as Hconf.
  { unfold confidenceOf. rewrite Hv. reflexivity. }
  split; [exact Hconf |].
  rewrite !detectStep_fst, Hconf, Hv, Ht. reflexivity.
Qed.

Lemma decision_independent_of_history_witness :
  let s1 := initialDetectionState in
  let s2 :=
    setSignatures initialDetectionState
      [mkSignature 12.5 7 0.7 40; mkSignature 3 1 0.3 900] in
  confidenceOf s1 0 10 9.9 1000 = confidenceOf s2 0 10 9.9 1000
  /\ fst (detectStep s1 0 10 9.9 1000) = fst (detectStep s2 0 10 9.9 1000).
Proof.
  apply (decision_independent_of_history
           initialDetectionState
           (setSignatures initialDetectionState
              [mkSignature 12.5 7 0.7 40; mkSignature 3 1 0.3 900])
           0 10 9.9 1000%Z);
    reflexivity.
Defined.

(** ** Worked examples *)

(** C4, counterexample.  The first call at timestamp 0: the interval is
    [0 - 0], not above 250, so the interval test fails, its term is absent
    and the confidence is 0, not 0.3. *)
Lemma first_call_at_time_zero :
  let state := detectionState (newTracker None) in
  timeSinceLastStep state 0 = 0%Z
  /\ isValidStepInterval state 0 = false
  /\ confidenceOf state 0 0 9.8 0 = 0
  /\ (confidenceOf state 0 0 9.8 0 =? 0.3) = false.
Proof. repeat split. Qed.

(** C4 (amended). On a new tracker the sample [(0, 0, 9.8)] is not a
    significant movement (its magnitude 9.8 is not above 9.8) and not a vertical
    step; [lastPeakTime] starts at 0, so the interval test compares the
    timestamp itself with 250: at [t = 0], and at any [t <= 250], it fails and
    the confidence is 0; at [t > 250] it holds and the confidence is 0.3.
    Either way no step is detected and the handler records none. *)
Theorem first_call_gravity_sample :
  forall saved t tRec,
    let tracker := newTracker saved in
    let state := detectionState tracker in
    magnitudeOf 0 0 9.8 = 9.8
    /\ isSignificantMovement 0 0 9.8 = false
    /\ isVerticalStep 0 = false
    /\ isValidStepInterval state t = (250 <? t)%Z
    /\ confidenceOf state 0 0 9.8 t = (if (250 <? t)%Z then 0.3 else 0)
    /\ fst (detectStep state 0 0 9.8 t) = false
    /\ steps (processMotionData tracker (sampleEvent 0 0 9.8) t tRec)
       = steps tracker
    /\ lastPeakTime
         (detectionState (processMotionData tracker (sampleEvent 0 0 9.8) t tRec))
       = 0%Z.
Proof.
  intros saved t tRec tracker state.
  assert (isValidStepInterval state t = (250 <? t)%Z) as Hv.
  { unfold isValidStepInterval, timeSinceLastStep. simpl. rewrite Z.sub_0_r.
    reflexivity. }
  assert (confidenceOf state 0 0 9.8 t = (if (250 <? t)%Z then 0.3 else 0))
    as Hconf.
  { unfold confidenceOf. rewrite Hv. destruct (250 <? t)%Z; reflexivity. }
  assert (fst (detectStep state 0 0 9.8 t) = false) as Hd.
  { rewrite detectStep_fst, Hconf, Hv. destruct (250 <? t)%Z; reflexivity. }
  repeat split; try assumption.
  - rewrite (processMotionData_sample tracker (sampleEvent 0 0 9.8) 0 0 9.8 t tRec
               eq_refl).
    fold state. rewrite Hd. reflexivity.
  - rewrite (processMotionData_sample tracker (sampleEvent 0 0 9.8) 0 0 9.8 t tRec
               eq_refl).
    fold state. rewrite Hd. reflexivity.
Qed.

(** ** The signature history *)

Lemma lastn_short {A : Type} (n : nat) (l : list A) :
  (length l <= n)%nat -> lastn n l = l.
Proof.
  intros H. unfold lastn. replace (length l - n)%nat with 0%nat by lia.
  reflexivity.
Qed.

Lemma lastn_length {A : Type} (n : nat) (l : list A) :
  length (lastn n l) = Nat.min n (length l).
Proof. unfold lastn. rewrite length_skipn. lia. Qed.

(** Truncating early does not change what a later truncation keeps. *)
Lemma lastn_app_lastn {A : Type} (n : nat) (l l' : list A) :
  lastn n (lastn n l ++ l') = lastn n (l ++ l').
Proof.
  destruct (Nat.le_gt_cases (length l) n) as [Hle | Hgt].
  - rewrite (lastn_short n l Hle). reflexivity.
  - unfold lastn at 1 3. rewrite !length_app, lastn_length.
    replace (Nat.min n (length l)) with n by lia.
    unfold lastn.
    rewrite (skipn_app (length l + length l' - n)).
    rewrite (skipn_app (n + length l' - n)).
    rewrite skipn_skipn, length_skipn.
    f_equal; [f_equal | f_equal]; lia.
Qed.

Lemma pushSignature_lastn sigs s :
  (length sigs <= 10)%nat -> pushSignature sigs s = lastn 10 (sigs ++ [s]).
Proof.
  intros Hlen. unfold pushSignature. cbv zeta.
  destruct (Nat.ltb_spec 10 (length (sigs ++ [s]))) as [Hgt | Hle].
  - unfold lastn. rewrite length_app in *. simpl length in *.
    replace (length sigs + 1 - 10)%nat with 1%nat by lia.
    destruct (sigs ++ [s]); reflexivity.
  - symmetry. apply lastn_short. exact Hle.
Qed.

(** ** The confidence *)

(** C2. In every reachable state the confidence [detectStep] computes for a
    sample [(x, y, z, t)] is 0.4 if [sqrt (x*x + y*y + z*z) > 9.8] else 0, plus
    0.3 if [t - lastPeakTime > 250] else 0, plus 0.3 if [|y| > 6] else 0.  That
    sum, unclamped, is the confidence of the signature the call pushes on the
    history, and it is the value the call compares with the threshold 0.7
    to decide. *)
Theorem confidence_is_weighted_sum :
  forall tracker x y z t,
    reachable tracker ->
    let state := detectionState tracker in
    let c := specConfidence x y z t (lastPeakTime state) in
    confidenceOf state x y z t = c
    /\ stepSignatures (snd (detectStep state x y z t))
       = lastn 10
           (stepSignatures state
            ++ [mkSignature (sqrt (x * x + y * y + z * z)) (abs y) c t])
    /\ fst (detectStep state x y z t)
       = (0.7 <? c) && (250 <? t - lastPeakTime state)%Z.
Proof.
  intros tracker x y z t Hr state c.
  destruct (reachable_defaultConfig tracker Hr) as [Hc Ht].
  assert (confidenceOf state x y z t = c) as Hconf.
  { unfold confidenceOf. subst c. unfold specConfidence. cbv zeta.
    rewrite confidence_sum.
    unfold isSignificantMovement, isValidStepInterval, isVerticalStep,
      timeSinceLastStep, verticalMovementOf, magnitudeOf, movementThreshold.
    subst state. rewrite Hc. reflexivity. }
  split; [exact Hconf |]. split.
  - rewrite detectStep_snd. cbn [stepSignatures setSignatures].
    rewrite (pushSignature_lastn _ _ (reachable_length tracker Hr)).
    unfold signatureOf. fold state. rewrite Hconf. reflexivity.
  - rewrite detectStep_fst, Hconf. unfold isValidStepInterval, timeSinceLastStep.
    subst state. rewrite Hc, Ht. reflexivity.
Qed.

Lemma confidence_is_weighted_sum_witness :
  let state := detectionState (newTracker None) in
  let c := specConfidence 0 10 9.9 1000 (lastPeakTime state) in
  confidenceOf state 0 10 9.9 1000 = c
  /\ stepSignatures (snd (detectStep state 0 10 9.9 1000))
     = lastn 10
         (stepSignatures state
          ++ [mkSignature (sqrt (0 * 0 + 10 * 10 + 9.9 * 9.9)) (abs 10) c 1000])
  /\ fst (detectStep state 0 10 9.9 1000)
     = (0.7 <? c) && (250 <? 1000 - lastPeakTime state)%Z.
Proof.
  apply (confidence_is_weighted_sum (newTracker None) 0 10 9.9 1000%Z).
  apply reachable_new.
Defined.

Lemma processMotionData_signatures tracker event x y z t tRec :
  eventAcceleration event = Some (mkVec3 x y z) ->
  stepSignatures (detectionState (processMotionData tracker event t tRec))
  = pushSignature (stepSignatures (detectionState tracker))
      (signatureOf (detectionState tracker) x y z t).
Proof.
  intros He. rewrite (processMotionData_sample _ _ _ _ _ _ _ He). cbv zeta.
  destruct (fst (detectStep _ x y z t)); reflexivity.
Qed.

Lemma handle_signatures tracker i :
  (length (stepSignatures (detectionState tracker)) <= 10)%nat ->
  stepSignatures (detectionState (handle tracker i))
  = lastn 10 (stepSignatures (detectionState tracker) ++ signaturesOf tracker [i]).
Proof.
  intros Hlen. destruct i as [event t tRec |]; simpl.
  - destruct (eventAcceleration event) as [[x y z] |] eqn:He.
    + rewrite (processMotionData_signatures _ _ x y z _ _ He). simpl.
      apply pushSignature_lastn. exact Hlen.
    + unfold processMotionData. rewrite He. simpl.
      rewrite app_nil_r. symmetry. apply lastn_short. exact Hlen.
  - rewrite app_nil_r. symmetry. apply lastn_short. exact Hlen.
Qed.

Lemma handle_length tracker i :
  (length (stepSignatures (detectionState tracker)) <= 10)%nat ->
  (length (stepSignatures (detectionState (handle tracker i))) <= 10)%nat.
Proof.
  intros Hlen. rewrite (handle_signatures _ _ Hlen), lastn_length. lia.
Qed.

Lemma signaturesOf_cons tracker i rest :
  signaturesOf tracker (i :: rest)
  = signaturesOf tracker [i] ++ signaturesOf (handle tracker i) rest.
Proof. simpl. rewrite app_nil_r. reflexivity. Qed.

Lemma run_signatures inputs :
  forall tracker,
    (length (stepSignatures (detectionState tracker)) <= 10)%nat ->
    stepSignatures (detectionState (run tracker inputs))
    = lastn 10 (stepSignatures (detectionState tracker)
                ++ signaturesOf tracker inputs).
Proof.
  induction inputs as [| i rest IH]; intros tracker Hlen.
  - simpl. rewrite app_nil_r. symmetry. apply lastn_short. exact Hlen.
  - change (run tracker (i :: rest)) with (run (handle tracker i) rest).
    rewrite (IH _ (handle_length _ i Hlen)).
    rewrite (handle_signatures _ _ Hlen), lastn_app_lastn.
    rewrite (signaturesOf_cons tracker i rest), app_assoc. reflexivity.
Qed.

(** C6. Every call of [detectStep] pushes exactly one signature, made of the
    magnitude, [|y|], the confidence and the timestamp of its sample, whether
    or not the sample is accepted; the history never holds more than ten
    entries; and along any execution of a new tracker it holds the last ten
    signatures pushed, oldest first, so exactly ten once ten samples have been
    processed. *)
Theorem signature_history_keeps_last_ten :
  forall saved inputs x y z t,
    let tracker := run (newTracker saved) inputs in
    let state := detectionState tracker in
    let pushed := signaturesOf (newTracker saved) inputs in
    stepSignatures (snd (detectStep state x y z t))
    = lastn 10 (stepSignatures state
                ++ [mkSignature (sqrt (x * x + y * y + z * z)) (abs y)
                      (confidenceOf state x y z t) t])
    /\ (length (stepSignatures state) <= 10)%nat
    /\ (length (stepSignatures (snd (detectStep state x y z t))) <= 10)%nat
    /\ stepSignatures state = lastn 10 pushed
    /\ length (stepSignatures state) = Nat.min 10 (length pushed).
Proof.
  intros saved inputs x y z t tracker state pushed.
  assert (length (stepSignatures state) <= 10)%nat as Hlen.
  { apply reachable_length, reachable_run, reachable_new. }
  assert (stepSignatures state = lastn 10 pushed) as Hhist.
  { subst state tracker pushed. rewrite run_signatures by (simpl; lia).
    reflexivity. }
  split; [| split; [| split; [| split]]].
  - rewrite detectStep_snd. simpl stepSignatures.
    apply pushSignature_lastn. exact Hlen.
  - exact Hlen.
  - rewrite detectStep_snd. simpl stepSignatures.
    apply pushSignature_length. exact Hlen.
  - exact Hhist.
  - rewrite Hhist. apply lastn_length.
Qed.

(** ** Frame of a handler call *)

(** C7, counterexample.  When the clock ticks between the two readings of
    an accepting call, [lastPeakTime] is the later reading, 1001, not the
    timestamp of the sample, 1000, which the pushed signature keeps. *)
Lemma peak_time_is_record_time :
  let tracker := newTracker None in
  let tracker' := processMotionData tracker (sampleEvent 0 10 9.9) 1000 1001 in
  stepDetected tracker (sampleEvent 0 10 9.9) 1000 = true
  /\ map timestamp (stepSignatures (detectionState tracker')) = [1000%Z]
  /\ lastPeakTime (detectionState tracker') = 1001%Z.
Proof. repeat split. Qed.

Lemma stepDetected_interval tracker event t :
  stepDetected tracker event t = true ->
  (stepCooldown (detectionState tracker)
   < t - lastPeakTime (detectionState tracker))%Z.
Proof.
  unfold stepDetected. destruct (eventAcceleration event) as [a |]; [| discriminate].
  rewrite detectStep_fst. intros H. apply andb_prop in H.
  apply isValidStepInterval_spec, H.
Qed.

(** C7 (amended). A handler call assigns [lastPeakTime] exactly when the
    sample is accepted.  On acceptance it sets it to the time [recordStep]
    reads from the clock, which is the timestamp of the sample when the clock
    has not moved since the sample was stamped and is later than the previous
    peak when the clock has not run backwards.  On a rejected sample, and on
    an event without acceleration, [lastPeakTime] and the step counter are
    unchanged.  In both cases nothing else of the detection state changes but
    the signature history. *)
Theorem lastPeakTime_frame :
  forall tracker event t tRec,
    let tracker' := processMotionData tracker event t tRec in
    let state := detectionState tracker in
    let state' := detectionState tracker' in
    (if stepDetected tracker event t
     then lastPeakTime state' = tRec
          /\ (tRec = t -> lastPeakTime state' = t)
          /\ (t <= tRec -> 0 <= stepCooldown state ->
              lastPeakTime state < lastPeakTime state')%Z
     else lastPeakTime state' = lastPeakTime state
          /\ steps tracker' = steps tracker
          /\ tracker'
             = mkTracker (steps tracker)
                 (setSignatures state (stepSignatures state')))
    /\ state'
       = setLastPeakTime (setSignatures state (stepSignatures state'))
           (lastPeakTime state').
Proof.
  intros tracker event t tRec tracker' state state'.
  destruct (stepDetected tracker event t) eqn:Hd.
  - pose proof (stepDetected_interval _ _ _ Hd) as Hint. fold state in Hint.
    unfold stepDetected in Hd. subst state' tracker'. unfold processMotionData.
    destruct (eventAcceleration event) as [a |]; [| discriminate].
    destruct (detectStep (detectionState tracker) (vx a) (vy a) (vz a) t)
      as [b st'] eqn:E.
    simpl in Hd. subst b. simpl.
    assert (st' = snd (detectStep (detectionState tracker) (vx a) (vy a) (vz a) t))
      as -> by (rewrite E; reflexivity).
    rewrite detectStep_snd. simpl. fold state.
    repeat split; try reflexivity.
    + intros ->. reflexivity.
    + intros Hclock Hcool. lia.
  - subst state' tracker'. unfold processMotionData. unfold stepDetected in Hd.
    destruct (eventAcceleration event) as [a |].
    + destruct (detectStep (detectionState tracker) (vx a) (vy a) (vz a) t)
        as [b st'] eqn:E.
      simpl in Hd. subst b. simpl.
      assert (st' = snd (detectStep (detectionState tracker) (vx a) (vy a) (vz a) t))
        as -> by (rewrite E; reflexivity).
      rewrite detectStep_snd. simpl. fold state. repeat split.
    + fold state. destruct tracker as [n st]. destruct st. repeat split.
Qed.

(** ** Cooldown *)

Lemma processMotionData_lastPeakTime tracker event t tRec :
  lastPeakTime (detectionState (processMotionData tracker event t tRec))
  = if stepDetected tracker event t then tRec
    else lastPeakTime (detectionState tracker).
Proof.
  unfold processMotionData, stepDetected.
  destruct (eventAcceleration event) as [a |]; [| reflexivity].
  unfold detectStep. cbv zeta. simpl fst.
  destruct ((confidenceThreshold _ <? _) && _); reflexivity.
Qed.

(** With a clock that does not run backwards inside a handler call, the
    recorded peak time never decreases. *)
Lemma handle_lastPeakTime_mono tracker i :
  (0 <= stepCooldown (detectionState tracker))%Z ->
  clockOrdered i ->
  (lastPeakTime (detectionState tracker)
   <= lastPeakTime (detectionState (handle tracker i)))%Z.
Proof.
  intros Hcool Hclock. destruct i as [event t tRec |]; simpl in *; [| lia].
  rewrite processMotionData_lastPeakTime.
  destruct (stepDetected tracker event t) eqn:Hd; [| lia].
  pose proof (stepDetected_interval _ _ _ Hd). lia.
Qed.

Lemma run_lastPeakTime_mono inputs :
  forall tracker,
    reachable tracker ->
    Forall clockOrdered inputs ->
    (lastPeakTime (detectionState tracker)
     <= lastPeakTime (detectionState (run tracker inputs)))%Z.
Proof.
  induction inputs as [| i rest IH]; intros tracker Hr Hclock.
  - simpl. lia.
  - change (run tracker (i :: rest)) with (run (handle tracker i) rest).
    pose proof (Forall_inv Hclock) as Hi.
    pose proof (Forall_inv_tail Hclock) as Hrest.
    destruct (reachable_defaultConfig _ Hr) as [Hc _].
    assert (0 <= stepCooldown (detectionState tracker))%Z as Hcool
      by (rewrite Hc; lia).
    pose proof (handle_lastPeakTime_mono tracker i Hcool Hi).
    pose proof (IH (handle tracker i) (reachable_handle _ i Hr) Hrest).
    lia.
Qed.

(** C3, counterexample.  [recordStep] keeps its own reading of the clock.
    When that reading is earlier than the timestamp of the accepted sample,
    here 700 for a sample stamped 1000, a sample stamped 1100, inside
    [(1000, 1250]], is 400 ms after the recorded peak and is accepted. *)
Lemma cooldown_broken_by_backward_clock :
  let ev := sampleEvent 0 10 9.9 in
  let tracker := newTracker None in
  let tracker' := processMotionData tracker ev 1000 700 in
  stepDetected tracker ev 1000 = true
  /\ lastPeakTime (detectionState tracker') = 700%Z
  /\ timeSinceLastStep (detectionState tracker') 1100 = 400%Z
  /\ stepDetected tracker' ev 1100 = true.
Proof. repeat split. Qed.

(** C3 (amended). In an execution where the clock does not run backwards
    between the two readings of any one handler call, once a step has been
    accepted for a sample stamped [T], no later sample stamped in
    [(T, T + 250]] is accepted, whatever its acceleration, and neither is a
    later sample stamped before [T]: its interval to the recorded peak is not
    above the cooldown.  The timestamps of different calls may come in any
    order. *)
Theorem cooldown_enforced :
  forall tracker event T TRec rest event' t,
    reachable tracker ->
    stepDetected tracker event T = true ->
    (T <= TRec)%Z ->
    Forall clockOrdered rest ->
    (T < t <= T + 250 \/ t < T)%Z ->
    let later := run (processMotionData tracker event T TRec) rest in
    (timeSinceLastStep (detectionState later) t <= 250)%Z
    /\ stepDetected later event' t = false.
Proof.
  intros tracker event T TRec rest event' t Hr Hacc HT Hclock Ht later.
  assert (reachable (processMotionData tracker event T TRec)) as Hr1.
  { apply (reachable_handle tracker (Motion event T TRec)), Hr. }
  pose proof (run_lastPeakTime_mono rest _ Hr1 Hclock) as Hmono.
  rewrite processMotionData_lastPeakTime, Hacc in Hmono. fold later in Hmono.
  destruct (reachable_defaultConfig later (reachable_run _ rest Hr1)) as [Hc _].
  assert (timeSinceLastStep (detectionState later) t <= 250)%Z as Hint.
  { unfold timeSinceLastStep. lia. }
  split; [exact Hint |].
  unfold stepDetected. destruct (eventAcceleration event') as [a |]; [| reflexivity].
  rewrite detectStep_fst. unfold isValidStepInterval. rewrite Hc.
  replace (250 <? timeSinceLastStep (detectionState later) t)%Z with false.
  - apply andb_false_r.
  - symmetry. apply Z.ltb_ge. exact Hint.
Qed.

Lemma cooldown_enforced_witness :
  let later :=
    run (processMotionData (newTracker None) (sampleEvent 0 10 9.9) 1000 1000)
      [Motion (sampleEvent 0 10 9.9) 1100 1100; ManualClick] in
  (timeSinceLastStep (detectionState later) 1200 <= 250)%Z
  /\ stepDetected later (sampleEvent 0 30 30) 1200 = false.
Proof.
  apply (cooldown_enforced (newTracker None) (sampleEvent 0 10 9.9) 1000%Z 1000%Z
           [Motion (sampleEvent 0 10 9.9) 1100 1100; ManualClick]
           (sampleEvent 0 30 30) 1200%Z).
  - apply reachable_new.
  - reflexivity.
  - lia.
  - repeat constructor; simpl; lia.
  - left. lia.
Defined.

(** ** A worked sequence *)

Lemma strong_sample_decision state t :
  stepCooldown state = 250%Z ->
  confidenceThreshold state = 0.7 ->
  confidenceOf state 0 10 9.9 t
  = (if (250 <? t - lastPeakTime state)%Z then 1 else 0.7)
  /\ fst (detectStep state 0 10 9.9 t) = (250 <? t - lastPeakTime state)%Z.
Proof.
  intros Hc Ht. rewrite detectStep_fst.
  unfold confidenceOf, isValidStepInterval, timeSinceLastStep.
  rewrite Hc, Ht.
  change (isSignificantMovement 0 10 9.9) with true.
  change (isVerticalStep 10) with true.
  destruct (250 <? t - lastPeakTime state)%Z; split; reflexivity.
Qed.

(** C5, counterexample.  When [recordStep] reads the clock 50 ms after the
    first sample was stamped, the recorded peak is 1050, and the sample
    stamped 1300 is 250 ms after it, not more: it is rejected. *)
Lemma worked_sequence_late_reading :
  let ev := sampleEvent 0 10 9.9 in
  let t1 := processMotionData (newTracker None) ev 1000 1050 in
  let t2 := processMotionData t1 ev 1100 1100 in
  stepDetected (newTracker None) ev 1000 = true
  /\ lastPeakTime (detectionState t1) = 1050%Z
  /\ stepDetected t1 ev 1100 = false
  /\ timeSinceLastStep (detectionState t2) 1300 = 250%Z
  /\ confidenceOf (detectionState t2) 0 10 9.9 1300 = 0.7
  /\ stepDetected t2 ev 1300 = false.
Proof. repeat split. Qed.

(** C5 (amended). With the default configuration and no peak accepted yet,
    the sample [(0, 10, 9.9)] stamped 1000 has confidence 1 and is accepted,
    and [lastPeakTime] becomes the reading [r1] [recordStep] takes of the
    clock.  The same sample stamped 1100 is then [1100 - r1] after the peak:
    it is rejected, with confidence 0.7, which is not above 0.7, unless that
    interval exceeds 250.  Stamped 1300 it is accepted, with confidence 1,
    exactly when it is more than 250 ms after the peak then recorded.  When
    [recordStep] reads the clock in the millisecond of the first sample, the
    peak is 1000, the intervals are 100 and 300, the second sample is
    rejected and the third accepted. *)
Theorem worked_sequence :
  forall n sigs r1 r2,
    let ev := sampleEvent 0 10 9.9 in
    let t0 := mkTracker n (setSignatures initialDetectionState sigs) in
    let t1 := processMotionData t0 ev 1000 r1 in
    let t2 := processMotionData t1 ev 1100 r2 in
    let s1 := processMotionData t0 ev 1000 1000 in
    let s2 := processMotionData s1 ev 1100 r2 in
    (confidenceOf (detectionState t0) 0 10 9.9 1000 = 1
     /\ stepDetected t0 ev 1000 = true
     /\ lastPeakTime (detectionState t1) = r1)
    /\ (timeSinceLastStep (detectionState t1) 1100 = (1100 - r1)%Z
        /\ stepDetected t1 ev 1100 = (250 <? 1100 - r1)%Z
        /\ confidenceOf (detectionState t1) 0 10 9.9 1100
           = (if (250 <? 1100 - r1)%Z then 1 else 0.7)
        /\ lastPeakTime (detectionState t2)
           = (if (250 <? 1100 - r1)%Z then r2 else r1))
    /\ (stepDetected t2 ev 1300
        = (250 <? 1300 - lastPeakTime (detectionState t2))%Z
        /\ confidenceOf (detectionState t2) 0 10 9.9 1300
           = (if (250 <? 1300 - lastPeakTime (detectionState t2))%Z
              then 1 else 0.7))
    /\ (lastPeakTime (detectionState s1) = 1000%Z
        /\ timeSinceLastStep (detectionState s1) 1100 = 100%Z
        /\ isValidStepInterval (detectionState s1) 1100 = false
        /\ confidenceOf (detectionState s1) 0 10 9.9 1100 = 0.7
        /\ (0.7 <? 0.7) = false
        /\ stepDetected s1 ev 1100 = false
        /\ lastPeakTime (detectionState s2) = 1000%Z
        /\ timeSinceLastStep (detectionState s2) 1300 = 300%Z
        /\ isValidStepInterval (detectionState s2) 1300 = true
        /\ confidenceOf (detectionState s2) 0 10 9.9 1300 = 1
        /\ stepDetected s2 ev 1300 = true).
Proof.
  intros n sigs r1 r2 ev t0 t1 t2 s1 s2.
  assert (stepDetected t0 ev 1000 = true) as D0 by reflexivity.
  assert (forall r, lastPeakTime (detectionState (processMotionData t0 ev 1000 r))
                    = r) as L1.
  { intros r. rewrite processMotionData_lastPeakTime, D0. reflexivity. }
  assert (forall r, defaultConfig (detectionState (processMotionData t0 ev 1000 r)))
    as C1.
  { intros r. destruct (processMotionData_config t0 ev 1000 r) as [Hc Ht].
    split; [rewrite Hc | rewrite Ht]; reflexivity. }
  assert (forall r r',
             defaultConfig
               (detectionState
                  (processMotionData (processMotionData t0 ev 1000 r) ev 1100 r')))
    as C2.
  { intros r r'. destruct (C1 r) as [Hc Ht].
    destruct (processMotionData_config (processMotionData t0 ev 1000 r) ev 1100 r')
      as [Hc' Ht'].
    split; [rewrite Hc' | rewrite Ht']; assumption. }
  assert (forall tracker t,
             defaultConfig (detectionState tracker) ->
             stepDetected tracker ev t
             = (250 <? t - lastPeakTime (detectionState tracker))%Z
             /\ confidenceOf (detectionState tracker) 0 10 9.9 t
                = (if (250 <? t - lastPeakTime (detectionState tracker))%Z
                   then 1 else 0.7)) as Hstrong.
  { intros tracker t [Hc Ht].
    destruct (strong_sample_decision (detectionState tracker) t Hc Ht) as [E1 E2].
    split; [exact E2 | exact E1]. }
  split; [| split; [| split]].
  - repeat split; try apply L1.
  - destruct (Hstrong t1 1100%Z (C1 r1)) as [Hd Hcf].
    assert (lastPeakTime (detectionState t1) = r1) as Lt1 by apply L1.
    rewrite Lt1 in Hd, Hcf.
    assert (timeSinceLastStep (detectionState t1) 1100 = (1100 - r1)%Z) as Hi
      by (unfold timeSinceLastStep; rewrite Lt1; reflexivity).
    assert (lastPeakTime (detectionState t2)
            = (if (250 <? 1100 - r1)%Z then r2 else r1)) as Lt2
      by (subst t2; rewrite processMotionData_lastPeakTime, Hd, Lt1;
          reflexivity).
    split; [exact Hi |]. split; [exact Hd |]. split; [exact Hcf | exact Lt2].
  - destruct (Hstrong t2 1300%Z (C2 r1 r2)) as [Hd Hcf].
    split; assumption.
  - assert (lastPeakTime (detectionState s1) = 1000%Z) as Ls1 by apply L1.
    destruct (Hstrong s1 1100%Z (C1 1000%Z)) as [Hd Hcf].
    rewrite Ls1 in Hd, Hcf.
    assert (lastPeakTime (detectionState s2) = 1000%Z) as Ls2.
    { subst s2. rewrite processMotionData_lastPeakTime, Hd. exact Ls1. }
    destruct (Hstrong s2 1300%Z (C2 1000%Z r2)) as [Hd' Hcf'].
    rewrite Ls2 in Hd', Hcf'.
    destruct (C1 1000%Z) as [Hc1 _]. destruct (C2 1000%Z r2) as [Hc2 _].
    fold s1 in Hc1. fold s1 s2 in Hc2.
    assert (timeSinceLastStep (detectionState s1) 1100 = 100%Z) as I1
      by (unfold timeSinceLastStep; rewrite Ls1; reflexivity).
    assert (timeSinceLastStep (detectionState s2) 1300 = 300%Z) as I2
      by (unfold timeSinceLastStep; rewrite Ls2; reflexivity).
    assert (isValidStepInterval (detectionState s1) 1100 = false) as V1
      by (unfold isValidStepInterval; rewrite I1, Hc1; reflexivity).
    assert (isValidStepInterval (detectionState s2) 1300 = true) as V2
      by (unfold isValidStepInterval; rewrite I2, Hc2; reflexivity).
    split; [exact Ls1 |]. split; [exact I1 |]. split; [exact V1 |].
    split; [exact Hcf |]. split; [reflexivity |]. split; [exact Hd |].
    split; [exact Ls2 |]. split; [exact I2 |]. split; [exact V2 |].
    split; [exact Hcf' | exact Hd'].
Qed.

(** ** Non-finite samples *)

(** *** NaN *)

Lemma is_nan_Prim2SF x : is_nan x = true -> Prim2SF x = S754_nan.
Proof. intros H. unfold Prim2SF. rewrite H. reflexivity. Qed.

Lemma not_nan_Prim2SF x : is_nan x = false -> Prim2SF x <> S754_nan.
Proof.
  intros H. unfold Prim2SF. rewrite H.
  destruct (is_zero x); [discriminate |].
  destruct (is_infinity x); [discriminate |].
  destruct (Z.frexp x) as [r ex].
  destruct (shr_fexp _ _ _ _ _) as [shr e'].
  destruct (shr_m shr); discriminate.
Qed.

Lemma mul_nan x y :
  Prim2SF x = S754_nan \/ Prim2SF y = S754_nan -> Prim2SF (x * y) = S754_nan.
Proof.
  intros [H | H]; rewrite mul_spec, H; [reflexivity |].
  destruct (Prim2SF x); reflexivity.
Qed.

Lemma add_nan x y :
  Prim2SF x = S754_nan \/ Prim2SF y = S754_nan -> Prim2SF (x + y) = S754_nan.
Proof.
  intros [H | H]; rewrite add_spec, H; [reflexivity |].
  destruct (Prim2SF x); reflexivity.
Qed.

Lemma sqrt_nan x : Prim2SF x = S754_nan -> Prim2SF (sqrt x) = S754_nan.
Proof. intros H. rewrite sqrt_spec, H. reflexivity. Qed.

Lemma ltb_nan_r x y : Prim2SF y = S754_nan -> (x <? y) = false.
Proof.
  intros H. rewrite ltb_spec, H. unfold SFltb, SFcompare.
  destruct (Prim2SF x); reflexivity.
Qed.

Lemma magnitudeOf_nan x y z :
  hasNaN x y z = true -> Prim2SF (magnitudeOf x y z) = S754_nan.
Proof.
  unfold hasNaN. intros H. unfold magnitudeOf. apply sqrt_nan.
  apply orb_true_iff in H. destruct H as [H | Hz].
  - apply add_nan. left. apply add_nan.
    apply orb_true_iff in H. destruct H as [Hx | Hy].
    + left. apply mul_nan. left. apply is_nan_Prim2SF, Hx.
    + right. apply mul_nan. left. apply is_nan_Prim2SF, Hy.
  - apply add_nan. right. apply mul_nan. left. apply is_nan_Prim2SF, Hz.
Qed.

(** *** Rounding a non-negative mantissa gives neither NaN nor a negative *)

Lemma shr_1_nonneg mrs : (0 <= shr_m mrs)%Z -> (0 <= shr_m (shr_1 mrs))%Z.
Proof.
  destruct mrs as [m r s]. destruct m as [| p | p]; simpl; intros H;
    try (destruct p; simpl; lia); lia.
Qed.

Lemma iter_shr_1_nonneg p :
  forall mrs, (0 <= shr_m mrs)%Z -> (0 <= shr_m (iter_pos shr_1 p mrs))%Z.
Proof.
  induction p as [p IH | p IH |]; intros mrs H; simpl.
  - apply IH, IH, shr_1_nonneg, H.
  - apply IH, IH, H.
  - apply shr_1_nonneg, H.
Qed.

Lemma shr_fexp_nonneg m e l :
  (0 <= m)%Z -> (0 <= shr_m (fst (shr_fexp prec emax m e l)))%Z.
Proof.
  intros H. unfold shr_fexp, shr.
  assert (0 <= shr_m (shr_record_of_loc m l))%Z as H'
    by (destruct l as [| []]; exact H).
  destruct (_ - e)%Z; simpl; try exact H'.
  apply iter_shr_1_nonneg, H'.
Qed.

Lemma round_nearest_even_nonneg m l :
  (0 <= m)%Z -> (0 <= round_nearest_even m l)%Z.
Proof.
  intros H. destruct l as [| []]; simpl; try destruct (Z.even m); lia.
Qed.

Lemma binary_round_aux_nonneg m e l :
  (0 <= m)%Z -> nonnegSF (binary_round_aux prec emax false m e l).
Proof.
  intros H. unfold binary_round_aux.
  pose proof (shr_fexp_nonneg m e l H) as H1.
  destruct (shr_fexp prec emax m e l) as [mrs' e']. simpl in H1.
  pose proof (shr_fexp_nonneg _ e' loc_Exact
                (round_nearest_even_nonneg _ (loc_of_shr_record mrs') H1)) as H2.
  destruct (shr_fexp prec emax (round_nearest_even _ _) e' loc_Exact)
    as [mrs'' e''].
  simpl in H2. destruct (shr_m mrs'') as [| p | p]; simpl; [exact I | | lia].
  destruct (e'' <=? _)%Z; reflexivity.
Qed.

(** *** Infinity *)

Lemma square_nonneg v : is_nan v = false -> nonnegSF (Prim2SF (v * v)).
Proof.
  intros Hv. rewrite mul_spec. pose proof (not_nan_Prim2SF v Hv) as Hn.
  destruct (Prim2SF v) as [b | b | | b m e]; try congruence; simpl.
  - exact I.
  - apply xorb_nilpotent.
  - unfold SF64mul, SFmul. rewrite xorb_nilpotent.
    apply binary_round_aux_nonneg. lia.
Qed.

Lemma add_nonneg a b :
  nonnegSF (Prim2SF a) -> nonnegSF (Prim2SF b) -> nonnegSF (Prim2SF (a + b)).
Proof.
  rewrite add_spec. unfold SF64add, SFadd.
  destruct (Prim2SF a) as [sa | sa | | sa ma ea];
    destruct (Prim2SF b) as [sb | sb | | sb mb eb]; simpl;
    try tauto; try congruence.
  - destruct sa, sb; exact (fun _ _ => I).
  - intros -> ->. reflexivity.
  - intros -> ->. unfold binary_normalize. simpl.
    unfold binary_round.
    destruct (shl_align _ _ _) as [mz ez].
    apply binary_round_aux_nonneg. lia.
Qed.

Lemma add_inf_l a b :
  Prim2SF a = S754_infinity false -> nonnegSF (Prim2SF b) ->
  Prim2SF (a + b) = S754_infinity false.
Proof.
  intros Ha Hb. rewrite add_spec, Ha. unfold SF64add, SFadd.
  destruct (Prim2SF b) as [sb | sb | | sb mb eb]; simpl in *;
    try tauto; try congruence; subst; reflexivity.
Qed.

Lemma add_inf_r a b :
  nonnegSF (Prim2SF a) -> Prim2SF b = S754_infinity false ->
  Prim2SF (a + b) = S754_infinity false.
Proof.
  intros Ha Hb. rewrite add_spec, Hb. unfold SF64add, SFadd.
  destruct (Prim2SF a) as [sa | sa | | sa ma ea]; simpl in *;
    try tauto; try congruence; subst; reflexivity.
Qed.

Lemma is_infinity_Prim2SF v :
  is_infinity v = true -> exists b, Prim2SF v = S754_infinity b.
Proof.
  unfold is_infinity. rewrite eqb_spec, abs_spec.
  change (Prim2SF infinity) with (S754_infinity false).
  destruct (Prim2SF v) as [b | b | | b m e]; simpl; try discriminate.
  intros _. exists b. reflexivity.
Qed.

Lemma square_inf v :
  is_infinity v = true -> Prim2SF (v * v) = S754_infinity false.
Proof.
  intros H. destruct (is_infinity_Prim2SF v H) as [b Hb].
  rewrite mul_spec, Hb. simpl. rewrite xorb_nilpotent. reflexivity.
Qed.

(** The magnitude of a sample with an infinite component and no NaN is
    [+Infinity]. *)
Lemma magnitudeOf_infinite x y z :
  hasNaN x y z = false -> hasInfinity x y z = true ->
  magnitudeOf x y z = infinity.
Proof.
  unfold hasNaN, hasInfinity. intros Hnan Hinf.
  apply orb_false_iff in Hnan. destruct Hnan as [Hnan Hz].
  apply orb_false_iff in Hnan. destruct Hnan as [Hx Hy].
  pose proof (square_nonneg x Hx) as Sx.
  pose proof (square_nonneg y Hy) as Sy.
  pose proof (square_nonneg z Hz) as Sz.
  assert (Prim2SF (x * x + y * y + z * z) = S754_infinity false) as Hsum.
  { apply orb_true_iff in Hinf. destruct Hinf as [Hinf | Iz].
    - apply add_inf_l; [| exact Sz].
      apply orb_true_iff in Hinf. destruct Hinf as [Ix | Iy].
      + apply add_inf_l; [apply square_inf, Ix | exact Sy].
      + apply add_inf_r; [exact Sx | apply square_inf, Iy].
    - apply add_inf_r; [| apply square_inf, Iz].
      apply add_nonneg; assumption. }
  apply Prim2SF_inj. unfold magnitudeOf. rewrite sqrt_spec, Hsum. reflexivity.
Qed.

(** C9, counterexample.  An infinite component is not degraded: the
    magnitude is infinite, the movement counts as significant, and with
    [|y| > 6] and a valid interval the step is accepted and recorded. *)
Lemma infinite_sample_accepted :
  let tracker := newTracker None in
  hasInfinity infinity 10 0 = true
  /\ magnitudeOf infinity 10 0 = infinity
  /\ confidenceOf (detectionState tracker) infinity 10 0 1000 = 1
  /\ stepDetected tracker (sampleEvent infinity 10 0) 1000 = true
  /\ steps (processMotionData tracker (sampleEvent infinity 10 0) 1000 1000)
     = steps tracker + 1.
Proof. repeat split. Qed.

(** C9 (amended). Under the default configuration the handler returns
    normally on every sample (each function of the embedding is total, as the
    source operations are).  A sample with a NaN component never yields a
    step: its magnitude is NaN, the movement test fails, and [steps] and
    [lastPeakTime] are left as they were.  A sample with an infinite
    component and no NaN is not degraded: its magnitude is [+Infinity], the
    movement counts as significant, and the sample is accepted exactly when
    the interval is valid and [|y| > 6]. *)
Theorem nonfinite_sample_decision :
  forall tracker event x y z t tRec,
    reachable tracker ->
    eventAcceleration event = Some (mkVec3 x y z) ->
    let state := detectionState tracker in
    let tracker' := processMotionData tracker event t tRec in
    (hasNaN x y z = true ->
     isSignificantMovement x y z = false
     /\ stepDetected tracker event t = false
     /\ steps tracker' = steps tracker
     /\ lastPeakTime (detectionState tracker') = lastPeakTime state)
    /\ (hasNaN x y z = false -> hasInfinity x y z = true ->
        isSignificantMovement x y z = true
        /\ stepDetected tracker event t
           = isValidStepInterval state t && isVerticalStep y).
Proof.
  intros tracker event x y z t tRec Hr He state tracker'.
  pose proof (reachable_decision tracker x y z t Hr) as Hd. fold state in Hd.
  assert (stepDetected tracker event t = fst (detectStep state x y z t)) as Hs.
  { unfold stepDetected. rewrite He. reflexivity. }
  split.
  - intros Hnan.
    assert (isSignificantMovement x y z = false) as Hsig.
    { unfold isSignificantMovement. apply ltb_nan_r, magnitudeOf_nan, Hnan. }
    assert (fst (detectStep state x y z t) = false) as Hrej
      by (rewrite Hd, Hsig; reflexivity).
    rewrite Hrej in Hs.
    repeat split; try assumption.
    + subst tracker'. rewrite (processMotionData_sample _ _ _ _ _ _ _ He).
      cbv zeta. fold state. rewrite Hrej. reflexivity.
    + subst tracker'. rewrite processMotionData_lastPeakTime, Hs. reflexivity.
  - intros Hnan Hinf.
    assert (isSignificantMovement x y z = true) as Hsig.
    { unfold isSignificantMovement.
      rewrite (magnitudeOf_infinite x y z Hnan Hinf). reflexivity. }
    split; [exact Hsig |].
    rewrite Hs, Hd, Hsig. reflexivity.
Qed.

Lemma nonfinite_sample_decision_witness :
  let tracker := newTracker None in
  let event := sampleEvent nan 10 9.9 in
  let state := detectionState tracker in
  let tracker' := processMotionData tracker event 1000 1000 in
  (hasNaN nan 10 9.9 = true ->
   isSignificantMovement nan 10 9.9 = false
   /\ stepDetected tracker event 1000 = false
   /\ steps tracker' = steps tracker
   /\ lastPeakTime (detectionState tracker') = lastPeakTime state)
  /\ (hasNaN nan 10 9.9 = false -> hasInfinity nan 10 9.9 = true ->
      isSignificantMovement nan 10 9.9 = true
      /\ stepDetected tracker event 1000
         = isValidStepInterval state 1000 && isVerticalStep 10).
Proof.
  apply (nonfinite_sample_decision (newTracker None) (sampleEvent nan 10 9.9)
           nan 10 9.9 1000%Z 1000%Z).
  - apply reachable_new.
  - reflexivity.
Defined.

(** * Further properties of the classifier *)

(** ** Orientation *)

Lemma square_opp x : (- x) * (- x) = x * x.
Proof.
  apply Prim2SF_inj. rewrite !mul_spec, opp_spec.
  destruct (Prim2SF x) as [s | s | | s m e]; simpl; try reflexivity;
    destruct s; reflexivity.
Qed.

Lemma abs_opp y : abs (- y) = abs y.
Proof.
  apply Prim2SF_inj. rewrite !abs_spec, opp_spec.
  destruct (Prim2SF y); reflexivity.
Qed.

(** X1. Reversing the direction of any axis changes nothing: the decision,
    the confidence and the stored signature depend on [x] and [z] through
    their squares and on [y] through its square and its absolute value. *)
Theorem detectStep_axis_reversal :
  forall state x y z t,
    detectStep state (- x) y z t = detectStep state x y z t
    /\ detectStep state x (- y) z t = detectStep state x y z t
    /\ detectStep state x y (- z) t = detectStep state x y z t.
Proof.
  intros state x y z t.
  unfold detectStep, signatureOf, confidenceOf, isSignificantMovement,
    isVerticalStep, verticalMovementOf, magnitudeOf.
  rewrite !square_opp, !abs_opp. repeat split.
Qed.

(** ** The step counter along an execution *)

Lemma handle_steps tracker i :
  steps (handle tracker i)
  = match i with
    | Motion event t _ =>
        if stepDetected tracker event t then steps tracker + 1
        else steps tracker
    | ManualClick => steps tracker + 1
    end.
Proof.
  destruct i as [event t tRec |]; [| reflexivity].
  simpl. unfold processMotionData, stepDetected.
  destruct (eventAcceleration event) as [a |]; [| reflexivity].
  unfold detectStep. cbv zeta. simpl fst.
  destruct ((confidenceThreshold _ <? _) && _); reflexivity.
Qed.

(** At 2^53 the increment is absorbed by rounding. *)
Lemma increment_absorbed_at_2_53 :
  steps (manualStep (mkTracker 9007199254740992 initialDetectionState))
  = 9007199254740992
  /\ steps (recordStep (mkTracker 9007199254740992 initialDetectionState) 1000)
     = 9007199254740992
  /\ steps (manualStep (mkTracker 41 initialDetectionState)) = 42.
Proof. repeat split. Qed.

Lemma incremented_add (p q : nat) count :
  incremented p (incremented q count) = incremented (p + q) count.
Proof. unfold incremented. symmetry. apply Nat.iter_add. Qed.

Lemma handle_steps_incremented tracker i :
  steps (handle tracker i)
  = incremented (manualClicks [i] + detectedSteps tracker [i]) (steps tracker).
Proof.
  rewrite handle_steps. destruct i as [event t tRec |]; cbn [manualClicks detectedSteps].
  - destruct (stepDetected tracker event t); reflexivity.
  - reflexivity.
Qed.

Lemma counts_cons tracker i rest :
  (manualClicks (i :: rest) + detectedSteps tracker (i :: rest)
   = (manualClicks rest + detectedSteps (handle tracker i) rest)
     + (manualClicks [i] + detectedSteps tracker [i]))%nat.
Proof.
  destruct i as [event t tRec |]; cbn [manualClicks detectedSteps]; lia.
Qed.

Lemma counts_le_one tracker i :
  (manualClicks [i] + detectedSteps tracker [i] <= 1)%nat.
Proof.
  destruct i as [event t tRec |]; cbn [manualClicks detectedSteps];
    [destruct (stepDetected tracker event t) |]; lia.
Qed.

(** X2. Only [this.steps++] writes the step counter, once for each manual
    click and once for each motion event on which a step is detected: after
    any execution the counter is the initial count incremented that many
    times, which is at most once per input. *)
Theorem steps_incremented_once_per_step :
  forall tracker inputs,
    steps (run tracker inputs)
    = incremented (manualClicks inputs + detectedSteps tracker inputs)
        (steps tracker)
    /\ (manualClicks inputs + detectedSteps tracker inputs
        <= length inputs)%nat.
Proof.
  intros tracker inputs. revert tracker.
  induction inputs as [| i rest IH]; intros tracker.
  - split; [reflexivity | cbn [manualClicks detectedSteps length]; lia].
  - change (run tracker (i :: rest)) with (run (handle tracker i) rest).
    destruct (IH (handle tracker i)) as [Hs Hle].
    rewrite Hs, handle_steps_incremented, incremented_add.
    rewrite (counts_cons tracker i rest).
    split; [reflexivity |].
    pose proof (counts_le_one tracker i). cbn [length]. lia.
Qed.

(** X3. The detector is rate limited.  With a clock that does not run
    backwards inside a handler call, every step the motion handler records
    moves [lastPeakTime] forward by more than the 250 ms cooldown: the detected
    steps of an execution, times 251, fit in the time by which [lastPeakTime]
    advanced. *)
Theorem detected_steps_rate_limited :
  forall tracker inputs,
    reachable tracker ->
    Forall clockOrdered inputs ->
    (251 * Z.of_nat (detectedSteps tracker inputs)
     <= lastPeakTime (detectionState (run tracker inputs))
        - lastPeakTime (detectionState tracker))%Z.
Proof.
  intros tracker inputs Hr Hclock. revert tracker Hr.
  induction inputs as [| i rest IH]; intros tracker Hr.
  - change (run tracker []) with tracker. cbn [detectedSteps]. lia.
  - change (run tracker (i :: rest)) with (run (handle tracker i) rest).
    pose proof (Forall_inv Hclock) as Hi.
    specialize (IH (Forall_inv_tail Hclock) (handle tracker i)
                  (reachable_handle _ i Hr)).
    destruct (reachable_defaultConfig _ Hr) as [Hc _].
    cbn [detectedSteps]. rewrite Nat2Z.inj_add.
    destruct i as [event t tRec |]; simpl in Hi.
    + simpl handle in IH |- *. rewrite processMotionData_lastPeakTime in IH.
      destruct (stepDetected tracker event t) eqn:Hd.
      * pose proof (stepDetected_interval _ _ _ Hd) as Hint.
        rewrite Hc in Hint. change (Z.of_nat 1) with 1%Z. lia.
      * change (Z.of_nat 0) with 0%Z. lia.
    + simpl handle in IH |- *. simpl detectionState in IH.
      change (Z.of_nat 0) with 0%Z. lia.
Qed.

Lemma detected_steps_rate_limited_witness :
  let inputs :=
    [Motion (sampleEvent 0 10 9.9) 1000 1000;
     Motion (sampleEvent 0 10 9.9) 1100 1100;
     ManualClick;
     Motion (sampleEvent 0 10 9.9) 1300 1302] in
  (251 * Z.of_nat (detectedSteps (newTracker None) inputs)
   <= lastPeakTime (detectionState (run (newTracker None) inputs))
      - lastPeakTime (detectionState (newTracker None)))%Z.
Proof.
  apply (detected_steps_rate_limited (newTracker None)
           [Motion (sampleEvent 0 10 9.9) 1000 1000;
            Motion (sampleEvent 0 10 9.9) 1100 1100;
            ManualClick;
            Motion (sampleEvent 0 10 9.9) 1300 1302]).
  - apply reachable_new.
  - repeat constructor; simpl; lia.
Defined.

(** ** What the history can hold *)

Lemma nonnegSF_not_below_zero s :
  nonnegSF s -> SFltb s (S754_zero false) = false.
Proof.
  destruct s as [b | b | | b m e]; simpl; try tauto; intros ->; reflexivity.
Qed.

Lemma sqrt_not_negative f : (sqrt f <? 0) = false.
Proof.
  rewrite ltb_spec, sqrt_spec. change (Prim2SF 0) with (S754_zero false).
  destruct (Prim2SF f) as [b | b | | b m e]; try reflexivity.
  - destruct b; reflexivity.
  - destruct b; [reflexivity |].
    apply nonnegSF_not_below_zero.
    unfold SF64sqrt, SFsqrt, SFsqrt_core_binary.
    match goal with
    | |- context [Z.sqrtrem ?n] =>
        pose proof (Z.sqrtrem_sqrt n) as Hq;
        pose proof (Z.sqrt_nonneg n) as Hn;
        destruct (Z.sqrtrem n) as [q r]
    end.
    simpl in Hq. subst q. apply binary_round_aux_nonneg. exact Hn.
Qed.

Lemma abs_not_negative f : (abs f <? 0) = false.
Proof.
  rewrite ltb_spec, abs_spec. change (Prim2SF 0) with (S754_zero false).
  destruct (Prim2SF f); reflexivity.
Qed.

Lemma signatureOf_inRange state x y z t :
  signatureInRange (signatureOf state x y z t).
Proof.
  unfold signatureInRange, signatureOf. simpl. split; [| split].
  - unfold confidenceOf. cbv zeta.
    destruct (isSignificantMovement x y z), (isValidStepInterval state t),
      (isVerticalStep y); simpl; auto 7.
  - apply sqrt_not_negative.
  - apply abs_not_negative.
Qed.

Lemma pushSignature_Forall (P : StepSignature -> Prop) sigs s :
  Forall P sigs -> P s -> Forall P (pushSignature sigs s).
Proof.
  intros Hs Hp. unfold pushSignature. cbv zeta.
  assert (Forall P (sigs ++ [s])) as H
    by (apply Forall_app; split; [exact Hs | constructor; [exact Hp | constructor]]).
  destruct (10 <? length (sigs ++ [s]))%nat; [| exact H].
  destruct (sigs ++ [s]); [exact H | exact (Forall_inv_tail H)].
Qed.

Lemma handle_signatures_Forall (P : StepSignature -> Prop) tracker i :
  (forall state x y z t, P (signatureOf state x y z t)) ->
  Forall P (stepSignatures (detectionState tracker)) ->
  Forall P (stepSignatures (detectionState (handle tracker i))).
Proof.
  intros Hsig H. destruct i as [event t tRec |]; [| exact H].
  simpl. destruct (eventAcceleration event) as [[x y z] |] eqn:He.
  - rewrite (processMotionData_signatures _ _ x y z _ _ He).
    apply pushSignature_Forall; [exact H | apply Hsig].
  - unfold processMotionData. rewrite He. exact H.
Qed.

(** X4. Whatever samples arrive, finite or not, every signature held in the
    history has one of the six confidences 0, 0.3, 0.4, 0.6, 0.7 and 1, and
    neither its magnitude nor its vertical movement is below zero. *)
Theorem history_signatures_in_range :
  forall saved inputs,
    Forall signatureInRange
      (stepSignatures (detectionState (run (newTracker saved) inputs))).
Proof.
  intros saved inputs.
  assert (forall tracker,
             Forall signatureInRange (stepSignatures (detectionState tracker)) ->
             Forall signatureInRange
               (stepSignatures (detectionState (run tracker inputs)))) as H.
  { induction inputs as [| i rest IH]; intros tracker Ht; [exact Ht |].
    apply (IH (handle tracker i)).
    apply handle_signatures_Forall; [apply signatureOf_inRange | exact Ht]. }
  apply H. constructor.
Qed.

(** ** Counting does not depend on the history *)

Lemma stepDetected_sameCounting t1 t2 event t :
  sameCounting t1 t2 -> stepDetected t1 event t = stepDetected t2 event t.
Proof.
  intros (_ & Hp & Hc & Ht). unfold stepDetected.
  destruct (eventAcceleration event) as [a |]; [| reflexivity].
  rewrite !detectStep_fst. unfold confidenceOf, isValidStepInterval,
    timeSinceLastStep. rewrite Hp, Hc, Ht. reflexivity.
Qed.

Lemma processMotionData_config_eq tracker event t tRec :
  stepCooldown (detectionState (processMotionData tracker event t tRec))
  = stepCooldown (detectionState tracker)
  /\ confidenceThreshold (detectionState (processMotionData tracker event t tRec))
     = confidenceThreshold (detectionState tracker).
Proof. apply processMotionData_config. Qed.

Lemma handle_sameCounting t1 t2 i :
  sameCounting t1 t2 -> sameCounting (handle t1 i) (handle t2 i).
Proof.
  intros H. pose proof H as (Hs & Hp & Hc & Ht).
  unfold sameCounting. rewrite !handle_steps.
  destruct i as [event t tRec |]; simpl handle.
  - rewrite !processMotionData_lastPeakTime.
    destruct (processMotionData_config_eq t1 event t tRec) as [-> ->].
    destruct (processMotionData_config_eq t2 event t tRec) as [-> ->].
    rewrite (stepDetected_sameCounting t1 t2 event t H).
    destruct (stepDetected t2 event t); repeat split; congruence.
  - simpl. repeat split; congruence.
Qed.

(** X5. Over whole executions the signature history is write-only: two
    trackers with the same step count, last peak and configuration, fed the
    same inputs, end with the same step count and last peak, whatever their
    histories held. *)
Theorem run_counting_independent_of_history :
  forall t1 t2 inputs,
    sameCounting t1 t2 -> sameCounting (run t1 inputs) (run t2 inputs).
Proof.
  intros t1 t2 inputs. revert t1 t2.
  induction inputs as [| i rest IH]; intros t1 t2 H; [exact H |].
  apply (IH (handle t1 i) (handle t2 i)), handle_sameCounting, H.
Qed.

Lemma run_counting_independent_of_history_witness :
  sameCounting
    (run (newTracker None)
       [Motion (sampleEvent 0 10 9.9) 1000 1000; ManualClick])
    (run (mkTracker 0
            (setSignatures initialDetectionState [mkSignature 12.5 7 0.7 40]))
       [Motion (sampleEvent 0 10 9.9) 1000 1000; ManualClick]).
Proof.
  apply (run_counting_independent_of_history
           (newTracker None)
           (mkTracker 0
              (setSignatures initialDetectionState [mkSignature 12.5 7 0.7 40]))
           [Motion (sampleEvent 0 10 9.9) 1000 1000; ManualClick]).
  repeat split.
Defined.

(** * Properties of the page *)

(** ** The page and the classifier *)

Lemma appProcessMotionData_tracker app event t tRec ts :
  app_tracker (appProcessMotionData app event t tRec ts)
  = processMotionData (app_tracker app) event t tRec.
Proof.
  unfold appProcessMotionData, processMotionData.
  destruct (eventAcceleration event) as [a |]; [| reflexivity].
  unfold detectStep. cbv zeta.
  destruct ((confidenceThreshold _ <? _) && _); reflexivity.
Qed.

Lemma setGoal_tracker app g : app_tracker (setGoal app g) = app_tracker app.
Proof. unfold setGoal. destruct (0 <? g); reflexivity. Qed.

Lemma setWeight_tracker app w : app_tracker (setWeight app w) = app_tracker app.
Proof. unfold setWeight. destruct (0 <? w); reflexivity. Qed.

Lemma settlePermission_tracker app r :
  app_tracker (settlePermission app r) = app_tracker app.
Proof. destruct r; reflexivity. Qed.

Lemma handleApp_tracker app i :
  app_tracker (handleApp app i) = run (app_tracker app) (trackerInput app i).
Proof.
  destruct i as [event t tRec ts | ts | g | w | r]; simpl.
  - destruct (motionListener app); [| reflexivity].
    apply appProcessMotionData_tracker.
  - destruct (existsb isManualStepButton (permissionStatus app)); reflexivity.
  - apply setGoal_tracker.
  - apply setWeight_tracker.
  - destruct (permissionPending app); [| reflexivity].
    apply settlePermission_tracker.
Qed.

Lemma run_app tracker l1 l2 :
  run tracker (l1 ++ l2) = run (run tracker l1) l2.
Proof. apply fold_left_app. Qed.

Lemma runApp_tracker inputs :
  forall app,
    app_tracker (runApp app inputs)
    = run (app_tracker app) (trackerInputs app inputs).
Proof.
  induction inputs as [| i rest IH]; intros app; [reflexivity |].
  change (runApp app (i :: rest)) with (runApp (handleApp app i) rest).
  rewrite IH, handleApp_tracker. simpl trackerInputs.
  rewrite run_app. reflexivity.
Qed.

Lemma newApp_tracker markup logItems stored support :
  app_tracker (newApp markup logItems stored support)
  = newTracker (storedSteps stored).
Proof. destruct stored, support; reflexivity. Qed.

(** X6. The page adds nothing to the counting: along any execution of a
    newly constructed page, the step counter and the detection state are
    those of the classifier run on the motion events and manual clicks that
    reached their handlers.  Goal and weight changes, the permission
    request, the display, the activity log and the saved settings never
    write them, so every tracker state of the page is a reachable one. *)
Theorem page_execution_is_classifier_execution :
  forall markup logItems stored support inputs,
    let app := newApp markup logItems stored support in
    app_tracker (runApp app inputs)
    = run (newTracker (storedSteps stored)) (trackerInputs app inputs)
    /\ reachable (app_tracker (runApp app inputs)).
Proof.
  intros markup logItems stored support inputs app.
  assert (app_tracker (runApp app inputs)
          = run (newTracker (storedSteps stored))
              (trackerInputs app inputs)) as H.
  { rewrite runApp_tracker. subst app. rewrite newApp_tracker. reflexivity. }
  split; [exact H |].
  rewrite H. apply reachable_run, reachable_new.
Qed.

(** ** The activity log *)

Lemma firstn_app_firstn {A : Type} (n : nat) (l l' : list A) :
  firstn n (l ++ firstn n l') = firstn n (l ++ l').
Proof.
  rewrite !firstn_app, firstn_firstn. f_equal. f_equal. lia.
Qed.

Lemma logActivity_items app ts msg :
  (length (activityLog app) <= 10)%nat ->
  activityLog (logActivity app ts msg)
  = firstn 10 ((ts ++ ": " ++ msg)%string :: activityLog app).
Proof.
  intros Hlen. unfold logActivity, withActivityLog. cbv zeta.
  cbn [activityLog].
  set (items := (ts ++ ": " ++ msg)%string :: activityLog app).
  assert (length items = S (length (activityLog app))) as Hl by reflexivity.
  destruct (Nat.ltb_spec 10 (length items)) as [Hgt | Hle].
  - rewrite removelast_firstn_len, Hl. simpl Nat.pred.
    replace (length (activityLog app)) with 10%nat by lia. reflexivity.
  - symmetry. apply firstn_all2. exact Hle.
Qed.

Lemma appProcessMotionData_items app event t tRec ts :
  (length (activityLog app) <= 10)%nat ->
  activityLog (appProcessMotionData app event t tRec ts)
  = firstn 10
      ((if stepDetected (app_tracker app) event t
        then [(ts ++ ": " ++ "Step detected")%string] else [])
       ++ activityLog app).
Proof.
  intros Hlen. unfold appProcessMotionData, stepDetected.
  destruct (eventAcceleration event) as [a |].
  - unfold detectStep. cbv zeta. simpl fst.
    destruct ((confidenceThreshold _ <? _) && _).
    + unfold appRecordStep. cbv zeta.
      change (activityLog (saveSettings ?a)) with (activityLog a).
      rewrite logActivity_items by exact Hlen. reflexivity.
    + rewrite firstn_all2 by exact Hlen. reflexivity.
  - rewrite firstn_all2 by exact Hlen. reflexivity.
Qed.

Lemma setGoal_items app g : activityLog (setGoal app g) = activityLog app.
Proof. unfold setGoal. destruct (0 <? g); reflexivity. Qed.

Lemma setWeight_items app w : activityLog (setWeight app w) = activityLog app.
Proof. unfold setWeight. destruct (0 <? w); reflexivity. Qed.

Lemma handleApp_items app i :
  (length (activityLog app) <= 10)%nat ->
  activityLog (handleApp app i)
  = firstn 10 (rev (loggedItem app i) ++ activityLog app).
Proof.
  intros Hlen.
  assert (activityLog app = firstn 10 ([] ++ activityLog app)) as Hsame
    by (symmetry; apply firstn_all2; exact Hlen).
  destruct i as [event t tRec ts | ts | g | w | r]; simpl handleApp;
    simpl loggedItem.
  - destruct (motionListener app); simpl andb; [| exact Hsame].
    rewrite appProcessMotionData_items by exact Hlen.
    destruct (stepDetected (app_tracker app) event t); reflexivity.
  - destruct (existsb isManualStepButton (permissionStatus app));
      [| exact Hsame].
    unfold appManualStep. cbv zeta.
    rewrite logActivity_items by exact Hlen. reflexivity.
  - rewrite setGoal_items. exact Hsame.
  - rewrite setWeight_items. exact Hsame.
  - destruct (permissionPending app); [| exact Hsame].
    destruct r; exact Hsame.
Qed.

Lemma runApp_items inputs :
  forall app,
    (length (activityLog app) <= 10)%nat ->
    activityLog (runApp app inputs)
    = firstn 10 (rev (loggedItems app inputs) ++ activityLog app).
Proof.
  induction inputs as [| i rest IH]; intros app Hlen.
  - rewrite firstn_all2 by exact Hlen. reflexivity.
  - change (runApp app (i :: rest)) with (runApp (handleApp app i) rest).
    assert (length (activityLog (handleApp app i)) <= 10)%nat as Hlen'.
    { rewrite handleApp_items by exact Hlen. rewrite length_firstn. lia. }
    rewrite (IH _ Hlen'), (handleApp_items _ _ Hlen), firstn_app_firstn.
    simpl loggedItems. rewrite rev_app_distr, app_assoc. reflexivity.
Qed.

Lemma loggedItem_steps app i :
  steps (app_tracker (handleApp app i))
  = incremented (length (loggedItem app i)) (steps (app_tracker app)).
Proof.
  rewrite handleApp_tracker.
  destruct i as [event t tRec ts | ts | g | w | r];
    unfold loggedItem, trackerInput; try reflexivity.
  - destruct (motionListener app); cbn [andb]; [| reflexivity].
    change (run (app_tracker app) [Motion event t tRec])
      with (handle (app_tracker app) (Motion event t tRec)).
    rewrite handle_steps.
    destruct (stepDetected (app_tracker app) event t); reflexivity.
  - destruct (existsb isManualStepButton (permissionStatus app)); reflexivity.
Qed.

(** X7. On a page whose log starts with at most ten items, the activity log
    is, after any execution, the ten newest of the texts logged so far
    followed by the items it started with, newest first; it never holds more
    than ten.  One text is logged for each execution of [this.steps++],
    detected or manual, and none for anything else. *)
Theorem activity_log_keeps_ten_newest :
  forall app inputs,
    (length (activityLog app) <= 10)%nat ->
    activityLog (runApp app inputs)
    = firstn 10 (rev (loggedItems app inputs) ++ activityLog app)
    /\ (length (activityLog (runApp app inputs)) <= 10)%nat
    /\ steps (app_tracker (runApp app inputs))
       = incremented (length (loggedItems app inputs)) (steps (app_tracker app)).
Proof.
  intros app inputs Hlen.
  pose proof (runApp_items inputs app Hlen) as H.
  split; [exact H |]. split.
  - rewrite H, length_firstn. lia.
  - clear H Hlen. revert app.
    induction inputs as [| i rest IH]; intros app; [reflexivity |].
    change (runApp app (i :: rest)) with (runApp (handleApp app i) rest).
    cbn [loggedItems]. rewrite IH, loggedItem_steps, incremented_add.
    rewrite length_app, Nat.add_comm. reflexivity.
Qed.

Lemma activity_log_keeps_ten_newest_witness :
  let app := newApp [] ["09:00:00: Step detected"%string] NoItem MotionEventsOnRequest in
  let inputs :=
    [ManualButtonClick "09:00:05"; PermissionSettled Granted;
     DeviceMotion (sampleEvent 0 10 9.9) 1000 1000 "09:00:07";
     ManualButtonClick "09:00:09"] in
  activityLog (runApp app inputs)
  = firstn 10 (rev (loggedItems app inputs) ++ activityLog app)
  /\ (length (activityLog (runApp app inputs)) <= 10)%nat
  /\ steps (app_tracker (runApp app inputs))
     = incremented (length (loggedItems app inputs)) (steps (app_tracker app)).
Proof.
  apply (activity_log_keeps_ten_newest
           (newApp [] ["09:00:00: Step detected"%string] NoItem MotionEventsOnRequest)
           [ManualButtonClick "09:00:05"; PermissionSettled Granted;
            DeviceMotion (sampleEvent 0 10 9.9) 1000 1000 "09:00:07";
            ManualButtonClick "09:00:09"]).
  simpl. lia.
Defined.

(** ** Frames of the handlers *)

Lemma appProcessMotionData_frame app event t tRec ts :
  let app' := appProcessMotionData app event t tRec ts in
  dailyGoal app' = dailyGoal app
  /\ userWeight app' = userWeight app
  /\ permissionStatus app' = permissionStatus app
  /\ motionListener app' = motionListener app
  /\ permissionPending app' = permissionPending app.
Proof.
  unfold appProcessMotionData.
  destruct (eventAcceleration event) as [a |]; [| repeat split].
  unfold detectStep. cbv zeta.
  destruct ((confidenceThreshold _ <? _) && _); repeat split.
Qed.

Lemma appManualStep_frame app ts :
  let app' := appManualStep app ts in
  dailyGoal app' = dailyGoal app
  /\ userWeight app' = userWeight app
  /\ permissionStatus app' = permissionStatus app
  /\ motionListener app' = motionListener app
  /\ permissionPending app' = permissionPending app
  /\ storage app' = storage app.
Proof. repeat split. Qed.

Lemma setGoal_frame app g :
  let app' := setGoal app g in
  userWeight app' = userWeight app
  /\ permissionStatus app' = permissionStatus app
  /\ motionListener app' = motionListener app
  /\ permissionPending app' = permissionPending app.
Proof. unfold setGoal. destruct (0 <? g); repeat split. Qed.

Lemma setWeight_frame app w :
  let app' := setWeight app w in
  dailyGoal app' = dailyGoal app
  /\ permissionStatus app' = permissionStatus app
  /\ motionListener app' = motionListener app
  /\ permissionPending app' = permissionPending app.
Proof. unfold setWeight. destruct (0 <? w); repeat split. Qed.

Lemma settlePermission_frame app r :
  let app' := settlePermission app r in
  dailyGoal app' = dailyGoal app
  /\ userWeight app' = userWeight app
  /\ display app' = display app
  /\ storage app' = storage app.
Proof. destruct r; repeat split. Qed.

(** ** Saved settings *)

Lemma positive_not_nan f : (0 <? f) = true -> is_nan f = false.
Proof.
  intros H. destruct (is_nan f) eqn:E; [| reflexivity].
  rewrite (ltb_nan_r 0 f (is_nan_Prim2SF f E)) in H. discriminate.
Qed.

Lemma positive_not_zero f : (0 <? f) = true -> is_zero f = false.
Proof.
  unfold is_zero. rewrite ltb_spec, eqb_spec.
  change (Prim2SF 0) with (S754_zero false).
  destruct (Prim2SF f) as [b | b | | b m e]; simpl; try discriminate;
    destruct b; try discriminate; reflexivity.
Qed.

Lemma orDefault_jsonNumber f d :
  (0 <? f) = true ->
  orDefault (jsonNumber f) d = if is_infinity f then d else f.
Proof.
  intros H. unfold jsonNumber, orDefault.
  rewrite (positive_not_nan f H), (positive_not_zero f H). simpl.
  destruct (is_infinity f); [reflexivity |].
  rewrite (positive_not_nan f H), (positive_not_zero f H). reflexivity.
Qed.

Lemma orDefault_jsonNumber_count c :
  orDefault (jsonNumber c) 0
  = if is_nan c || is_infinity c || is_zero c then 0 else c.
Proof.
  unfold jsonNumber, orDefault.
  destruct (is_nan c) eqn:En; cbn [orb]; [reflexivity |].
  destruct (is_infinity c); cbn [orb]; [reflexivity |].
  destruct (is_zero c) eqn:Ez; [reflexivity |].
  rewrite Ez, En. reflexivity.
Qed.

(** X8. Saved settings survive a reload.  After [saveSettings] on a store
    that can be written, a page constructed anew from the storage has the
    same step count when it is a finite Number (a count of NaN or an
    infinity is saved as [null] and comes back as 0), and the same daily goal
    and weight when these are positive and finite; a goal or a weight of
    [+Infinity], which the setters accept, is saved as [null] and comes back
    as the default 10000 or 70.  The detection state starts afresh and the
    display shows the restored count.  On a store whose access throws
    nothing is saved, and the page constructed anew has the constructor's
    values. *)
Theorem settings_survive_reload :
  forall app markup logItems support,
    (0 <? dailyGoal app) = true ->
    (0 <? userWeight app) = true ->
    let reloaded := newApp markup logItems (storage (saveSettings app)) support in
    match storage app with
    | StorageUnreadable =>
        app_tracker reloaded = newTracker None
        /\ dailyGoal reloaded = 10000
        /\ userWeight reloaded = 70
        /\ display reloaded = None
    | _ =>
        steps (app_tracker reloaded)
        = (let count := steps (app_tracker app) in
           if is_nan count || is_infinity count || is_zero count
           then 0 else count)
        /\ dailyGoal reloaded
           = (if is_infinity (dailyGoal app) then 10000 else dailyGoal app)
        /\ userWeight reloaded
           = (if is_infinity (userWeight app) then 70 else userWeight app)
        /\ detectionState (app_tracker reloaded) = initialDetectionState
        /\ display reloaded
           = Some {| stepCount := steps (app_tracker reloaded);
                     progressPercentage :=
                       progressOf (steps (app_tracker reloaded))
                         (dailyGoal reloaded) |}
    end.
Proof.
  intros app markup logItems support Hg Hw reloaded.
  assert (storage app <> StorageUnreadable ->
          steps (app_tracker reloaded)
          = orDefault (jsonNumber (steps (app_tracker app))) 0
          /\ dailyGoal reloaded = orDefault (jsonNumber (dailyGoal app)) 10000
          /\ userWeight reloaded = orDefault (jsonNumber (userWeight app)) 70
          /\ detectionState (app_tracker reloaded) = initialDetectionState
          /\ display reloaded
             = Some {| stepCount := steps (app_tracker reloaded);
                       progressPercentage :=
                         progressOf (steps (app_tracker reloaded))
                           (dailyGoal reloaded) |}) as Hload.
  { intros Hs. subst reloaded. unfold saveSettings. cbn [storage withStorage].
    destruct (storage app); try congruence; destruct support; repeat split. }
  assert (storage app <> StorageUnreadable ->
          steps (app_tracker reloaded)
          = (let count := steps (app_tracker app) in
             if is_nan count || is_infinity count || is_zero count
             then 0 else count)
          /\ dailyGoal reloaded
             = (if is_infinity (dailyGoal app) then 10000 else dailyGoal app)
          /\ userWeight reloaded
             = (if is_infinity (userWeight app) then 70 else userWeight app)
          /\ detectionState (app_tracker reloaded) = initialDetectionState
          /\ display reloaded
             = Some {| stepCount := steps (app_tracker reloaded);
                       progressPercentage :=
                         progressOf (steps (app_tracker reloaded))
                           (dailyGoal reloaded) |}) as Hsaved.
  { intros Hs. destruct (Hload Hs) as (E1 & E2 & E3 & E4 & E5).
    split; [| split; [| split; [| split]]].
    - rewrite E1. apply orDefault_jsonNumber_count.
    - rewrite E2. apply orDefault_jsonNumber, Hg.
    - rewrite E3. apply orDefault_jsonNumber, Hw.
    - exact E4.
    - exact E5. }
  destruct (storage app) eqn:Es; try (apply Hsaved; discriminate).
  subst reloaded. unfold saveSettings. cbn [storage withStorage]. rewrite Es.
  destruct support; repeat split.
Qed.

Lemma settings_survive_reload_witness :
  let app :=
    runApp (newApp [] [] NoItem MotionEvents)
      [SetGoalClick 8000; SetWeightClick infinity;
       DeviceMotion (sampleEvent 0 10 9.9) 1000 1000 "09:00:07"] in
  let reloaded := newApp [] [] (storage (saveSettings app)) MotionEvents in
  steps (app_tracker reloaded)
  = (let count := steps (app_tracker app) in
     if is_nan count || is_infinity count || is_zero count then 0 else count)
  /\ dailyGoal reloaded
     = (if is_infinity (dailyGoal app) then 10000 else dailyGoal app)
  /\ userWeight reloaded
     = (if is_infinity (userWeight app) then 70 else userWeight app)
  /\ detectionState (app_tracker reloaded) = initialDetectionState
  /\ display reloaded
     = Some {| stepCount := steps (app_tracker reloaded);
               progressPercentage :=
                 progressOf (steps (app_tracker reloaded)) (dailyGoal reloaded) |}.
Proof.
  apply (settings_survive_reload
           (runApp (newApp [] [] NoItem MotionEvents)
              [SetGoalClick 8000; SetWeightClick infinity;
               DeviceMotion (sampleEvent 0 10 9.9) 1000 1000 "09:00:07"])
           [] [] MotionEvents);
    reflexivity.
Defined.

Lemma manual_clicks_storage times :
  forall app,
    existsb isManualStepButton (permissionStatus app) = true ->
    storage (runApp app (map ManualButtonClick times)) = storage app
    /\ steps (app_tracker (runApp app (map ManualButtonClick times)))
       = incremented (length times) (steps (app_tracker app)).
Proof.
  induction times as [| ts rest IH]; intros app Hb.
  - split; reflexivity.
  - change (runApp app (map ManualButtonClick (ts :: rest)))
      with (runApp (handleApp app (ManualButtonClick ts))
              (map ManualButtonClick rest)).
    assert (handleApp app (ManualButtonClick ts) = appManualStep app ts) as E
      by (simpl; rewrite Hb; reflexivity).
    rewrite E.
    destruct (IH (appManualStep app ts) Hb) as [Hs Hn].
    rewrite Hs, Hn. split; [reflexivity |].
    change (steps (app_tracker (appManualStep app ts)))
      with (incremented 1 (steps (app_tracker app))).
    rewrite incremented_add. cbn [length]. rewrite Nat.add_1_r. reflexivity.
Qed.

(** X9. Manual steps are not saved.  While the manual button is on the page,
    each click on it executes [this.steps++] and leaves the stored settings
    as they were: a page constructed from the storage afterwards is the page
    constructed from it before the clicks. *)
Theorem manual_steps_not_saved :
  forall app times markup logItems support,
    existsb isManualStepButton (permissionStatus app) = true ->
    let app' := runApp app (map ManualButtonClick times) in
    steps (app_tracker app')
    = incremented (length times) (steps (app_tracker app))
    /\ storage app' = storage app
    /\ newApp markup logItems (storage app') support
       = newApp markup logItems (storage app) support.
Proof.
  intros app times markup logItems support Hb app'.
  destruct (manual_clicks_storage times app Hb) as [Hs Hn].
  subst app'. rewrite Hs. repeat split. exact Hn.
Qed.

Lemma manual_steps_not_saved_witness :
  let app :=
    saveSettings (newApp [] [] NoItem MotionEventsOnRequest) in
  let app' := runApp app (map ManualButtonClick ["09:00:01"; "09:00:02"]%string) in
  steps (app_tracker app') = incremented 2 (steps (app_tracker app))
  /\ storage app' = storage app
  /\ newApp [] [] (storage app') MotionEvents
     = newApp [] [] (storage app) MotionEvents.
Proof.
  apply (manual_steps_not_saved
           (saveSettings (newApp [] [] NoItem MotionEventsOnRequest))
           ["09:00:01"; "09:00:02"]%string [] [] MotionEvents).
  reflexivity.
Defined.

(** ** Goal and weight *)

Lemma handleApp_goal_weight app i :
  (0 <? dailyGoal app) = true ->
  (0 <? userWeight app) = true ->
  (0 <? dailyGoal (handleApp app i)) = true
  /\ (0 <? userWeight (handleApp app i)) = true.
Proof.
  intros Hg Hw. destruct i as [event t tRec ts | ts | g | w | r]; simpl.
  - destruct (motionListener app); [| split; assumption].
    destruct (appProcessMotionData_frame app event t tRec ts)
      as (-> & -> & _).
    split; assumption.
  - destruct (existsb isManualStepButton (permissionStatus app));
      split; assumption.
  - unfold setGoal. destruct (0 <? g) eqn:E; split; assumption.
  - unfold setWeight. destruct (0 <? w) eqn:E; split; assumption.
  - destruct (permissionPending app); [| split; assumption].
    destruct (settlePermission_frame app r) as (-> & -> & _).
    split; assumption.
Qed.

(** X10. The goal and weight buttons never install a value that is zero,
    negative or NaN: from a page whose daily goal and weight are positive,
    every execution leaves both positive, whatever the fields held when the
    buttons were clicked. *)
Theorem goal_and_weight_stay_positive :
  forall app inputs,
    (0 <? dailyGoal app) = true ->
    (0 <? userWeight app) = true ->
    let app' := runApp app inputs in
    ((0 <? dailyGoal app') = true /\ is_nan (dailyGoal app') = false
     /\ is_zero (dailyGoal app') = false)
    /\ ((0 <? userWeight app') = true /\ is_nan (userWeight app') = false
        /\ is_zero (userWeight app') = false).
Proof.
  intros app inputs Hg Hw app'.
  assert ((0 <? dailyGoal app') = true /\ (0 <? userWeight app') = true)
    as [Hg' Hw'].
  { subst app'. revert app Hg Hw.
    induction inputs as [| i rest IH]; intros app Hg Hw; [split; assumption |].
    destruct (handleApp_goal_weight app i Hg Hw) as [Hg1 Hw1].
    apply (IH (handleApp app i) Hg1 Hw1). }
  repeat split; auto using positive_not_nan, positive_not_zero.
Qed.

Lemma goal_and_weight_stay_positive_witness :
  let app' :=
    runApp (newApp [] [] NoItem MotionEvents)
      [SetGoalClick (-5); SetGoalClick nan; SetWeightClick 0;
       SetGoalClick 8000; SetWeightClick 64.5] in
  ((0 <? dailyGoal app') = true /\ is_nan (dailyGoal app') = false
   /\ is_zero (dailyGoal app') = false)
  /\ ((0 <? userWeight app') = true /\ is_nan (userWeight app') = false
      /\ is_zero (userWeight app') = false).
Proof.
  apply (goal_and_weight_stay_positive
           (newApp [] [] NoItem MotionEvents)
           [SetGoalClick (-5); SetGoalClick nan; SetWeightClick 0;
            SetGoalClick 8000; SetWeightClick 64.5]);
    reflexivity.
Defined.

(** ** Progress *)

Lemma SFcompare_antisym a b :
  SFcompare b a = option_map CompOpp (SFcompare a b).
Proof.
  destruct a as [sa | sa | | sa ma ea], b as [sb | sb | | sb mb eb];
    simpl; try reflexivity;
    try (destruct sa; reflexivity); try (destruct sb; reflexivity);
    try (destruct sa, sb; reflexivity).
  pose proof (Pos.compare_cont_antisym ma mb Eq) as Hm. simpl in Hm.
  destruct sa, sb; simpl; try reflexivity;
    rewrite (Z.compare_antisym ea eb);
    destruct (ea ?= eb)%Z; simpl; try reflexivity;
    rewrite <- Hm; try rewrite CompOpp_involutive; reflexivity.
Qed.

Lemma ltb_asym a b : (a <? b) = true -> (b <? a) = false.
Proof.
  rewrite !ltb_spec. unfold SFltb.
  rewrite (SFcompare_antisym (Prim2SF a) (Prim2SF b)).
  destruct (SFcompare (Prim2SF a) (Prim2SF b)) as [[| |] |];
    simpl; try discriminate; reflexivity.
Qed.

Lemma leb_of_not_ltb a b :
  is_nan a = false -> is_nan b = false ->
  (b <? a) = false -> (a <=? b) = true.
Proof.
  intros Ha Hb. rewrite ltb_spec, leb_spec. unfold SFltb, SFleb.
  rewrite (SFcompare_antisym (Prim2SF a) (Prim2SF b)).
  pose proof (not_nan_Prim2SF a Ha) as Na.
  pose proof (not_nan_Prim2SF b Hb) as Nb.
  assert (SFcompare (Prim2SF a) (Prim2SF b) <> None) as Hsome.
  { destruct (Prim2SF a), (Prim2SF b); simpl; congruence. }
  destruct (SFcompare (Prim2SF a) (Prim2SF b)) as [[| |] |];
    simpl; try discriminate; try reflexivity; congruence.
Qed.

Lemma mathMin_cap a :
  (100 <? mathMin a 100) = false
  /\ (is_nan (mathMin a 100) = false -> (mathMin a 100 <=? 100) = true).
Proof.
  unfold mathMin. destruct (is_nan a) eqn:Ha; simpl orb.
  - split; [reflexivity | discriminate].
  - change (is_nan 100) with false. cbn [orb].
    destruct (a <? 100) eqn:Hlt.
    + split; [apply ltb_asym, Hlt |].
      intros _. rewrite leb_spec. rewrite ltb_spec in Hlt.
      unfold SFleb. unfold SFltb in Hlt.
      destruct (SFcompare (Prim2SF a) (Prim2SF 100)) as [[| |] |];
        try discriminate; reflexivity.
    + destruct (100 <? a) eqn:Hgt; [split; reflexivity |].
      destruct (get_sign a); [| split; reflexivity].
      split; [exact Hgt |].
      intros _. apply leb_of_not_ltb; [exact Ha | reflexivity | exact Hgt].
Qed.

(** X11. The progress percentage never exceeds 100, whatever the step count
    and the daily goal: it is NaN (when the quotient is) or at most 100. *)
Theorem progress_never_above_100 :
  forall stepsNow goal,
    (100 <? progressOf stepsNow goal) = false
    /\ (is_nan (progressOf stepsNow goal) = false ->
        (progressOf stepsNow goal <=? 100) = true).
Proof. intros stepsNow goal. unfold progressOf. apply mathMin_cap. Qed.

(** ** The display *)



(** ** Manual button and motion listener *)

Lemma handleApp_inert app i :
  manualButtonShown app = false
  /\ motionListener app = false
  /\ permissionPending app = false ->
  app_tracker (handleApp app i) = app_tracker app
  /\ permissionStatus (handleApp app i) = permissionStatus app
  /\ motionListener (handleApp app i) = false
  /\ permissionPending (handleApp app i) = false.
Proof.
  unfold manualButtonShown. intros (Hb & Hl & Hp).
  destruct i as [event t tRec ts | ts | g | w | r]; simpl.
  - rewrite Hl. repeat split; assumption.
  - rewrite Hb. repeat split; assumption.
  - rewrite setGoal_tracker.
    destruct (setGoal_frame app g) as (_ & -> & -> & ->).
    repeat split; assumption.
  - rewrite setWeight_tracker.
    destruct (setWeight_frame app w) as (_ & -> & -> & ->).
    repeat split; assumption.
  - rewrite Hp. repeat split; assumption.
Qed.

(** X13. Without [DeviceMotionEvent] a page whose constructor completes
    cannot count at all.  When [loadSettings] does not throw, the fallback
    writes "Automatic Tracking Unavailable" over the manual button and
    registers no motion handler, so whatever happens afterwards the step
    count and the detection state stay as the constructor left them. *)
Theorem fallback_page_never_counts :
  forall markup logItems stored inputs,
    loadThrows stored = false ->
    let app := runApp (newApp markup logItems stored NoDeviceMotion) inputs in
    app_tracker app = newTracker (storedSteps stored)
    /\ permissionStatus app
       = [StatusText "Automatic Tracking Unavailable"]
    /\ manualButtonShown app = false
    /\ motionListener app = false.
Proof.
  intros markup logItems stored inputs Hload app.
  assert (forall a,
             manualButtonShown a = false /\ motionListener a = false
             /\ permissionPending a = false ->
             app_tracker (runApp a inputs) = app_tracker a
             /\ permissionStatus (runApp a inputs) = permissionStatus a
             /\ motionListener (runApp a inputs) = false) as Hrun.
  { induction inputs as [| i rest IH]; intros a H.
    - destruct H as (_ & Hl & _). repeat split. exact Hl.
    - destruct (handleApp_inert a i H) as (Et & Es & El & Ep).
      change (runApp a (i :: rest)) with (runApp (handleApp a i) rest).
      destruct (IH (handleApp a i)) as (Et' & Es' & El').
      { unfold manualButtonShown. rewrite Es. destruct H as (Hb & _).
        repeat split; assumption. }
      rewrite Et', Es', Et, Es. repeat split. exact El'. }
  destruct (Hrun (newApp markup logItems stored NoDeviceMotion))
    as (Et & Es & El).
  { destruct stored; try discriminate; repeat split. }
  subst app. unfold manualButtonShown. rewrite Et, Es, El, newApp_tracker.
  destruct stored; try discriminate; repeat split.
Qed.

Lemma fallback_page_never_counts_witness :
  let stored := SettingsText (mkSettings (Some 4200) (Some 8000) None) in
  let app :=
    runApp (newApp [7%nat] [] stored NoDeviceMotion)
      [ManualButtonClick "09:00:01";
       DeviceMotion (sampleEvent 0 10 9.9) 1000 1000 "09:00:02";
       SetGoalClick 9000; PermissionSettled Granted] in
  app_tracker app = newTracker (storedSteps stored)
  /\ permissionStatus app = [StatusText "Automatic Tracking Unavailable"]
  /\ manualButtonShown app = false
  /\ motionListener app = false.
Proof.
  apply (fallback_page_never_counts [7%nat] []
           (SettingsText (mkSettings (Some 4200) (Some 8000) None))
           [ManualButtonClick "09:00:01";
            DeviceMotion (sampleEvent 0 10 9.9) 1000 1000 "09:00:02";
            SetGoalClick 9000; PermissionSettled Granted]).
  reflexivity.
Defined.

(** ** The permission request *)

Lemma handleApp_panel_frame app i :
  (permissionPending app = false \/ forall r, i <> PermissionSettled r) ->
  motionListener (handleApp app i) = motionListener app
  /\ permissionStatus (handleApp app i) = permissionStatus app
  /\ permissionPending (handleApp app i) = permissionPending app.
Proof.
  intros H. destruct i as [event t tRec ts | ts | g | w | r]; simpl.
  - destruct (motionListener app) eqn:El; [| rewrite El; repeat split].
    destruct (appProcessMotionData_frame app event t tRec ts)
      as (_ & _ & -> & -> & ->).
    rewrite El. repeat split.
  - destruct (existsb isManualStepButton (permissionStatus app));
      repeat split.
  - destruct (setGoal_frame app g) as (_ & -> & -> & ->). repeat split.
  - destruct (setWeight_frame app w) as (_ & -> & -> & ->). repeat split.
  - destruct H as [Hp | Hr]; [| destruct (Hr r); reflexivity].
    rewrite Hp. repeat split. exact Hp.
Qed.

Lemma runApp_settled inputs :
  forall app,
    permissionPending app = false ->
    motionListener (runApp app inputs) = motionListener app
    /\ permissionStatus (runApp app inputs) = permissionStatus app.
Proof.
  induction inputs as [| i rest IH]; intros app Hp; [split; reflexivity |].
  change (runApp app (i :: rest)) with (runApp (handleApp app i) rest).
  destruct (handleApp_panel_frame app i (or_introl Hp)) as (El & Es & Ep).
  destruct (IH (handleApp app i)) as [El' Es']; [congruence |].
  split; congruence.
Qed.

(** X14. The permission request decides once and for all.  After any
    execution of a newly constructed page, whether the motion handler is
    registered and what the status element holds are fixed by the stored
    item, the browser and how the request first settled.  When
    [loadSettings] throws, the constructor stops before asking: no handler,
    and the manual button under the page's markup.  Otherwise: registered
    with "Active" when no permission is needed, registered with "Enabled"
    when it was granted, not registered with "Permission Denied" when it was
    answered otherwise, not registered with the manual button under the
    page's markup while the request is unsettled or after it failed, and not
    registered with "Automatic Tracking Unavailable" without motion events.
    Nothing registers the handler later or removes it. *)
Theorem permission_outcome_is_final :
  forall markup logItems stored support inputs,
    let app := runApp (newApp markup logItems stored support) inputs in
    (motionListener app, permissionStatus app)
    = if loadThrows stored
      then (false, map MarkupNode markup ++ [ManualStepButton])
      else
        match support with
        | NoDeviceMotion => (false, [StatusText "Automatic Tracking Unavailable"])
        | MotionEvents => (true, [StatusText "Motion Tracking: Active"])
        | MotionEventsOnRequest =>
            match firstSettlement inputs with
            | Some Granted => (true, [StatusText "Motion Tracking: Enabled"])
            | Some NotGranted =>
                (false, [StatusText "Motion Tracking: Permission Denied"])
            | Some RequestFailed | None =>
                (false, map MarkupNode markup ++ [ManualStepButton])
            end
        end.
Proof.
  intros markup logItems stored support inputs app. subst app.
  destruct (loadThrows stored) eqn:Hload.
  - destruct (runApp_settled inputs (newApp markup logItems stored support))
      as [-> ->];
      destruct stored; try discriminate; reflexivity.
  - destruct support.
    + destruct (runApp_settled inputs
                  (newApp markup logItems stored NoDeviceMotion)) as [-> ->];
        destruct stored; try discriminate; reflexivity.
    + destruct (runApp_settled inputs
                  (newApp markup logItems stored MotionEvents)) as [-> ->];
        destruct stored; try discriminate; reflexivity.
    + assert (forall a,
                 permissionPending a = true ->
                 motionListener a = false ->
                 permissionStatus a = map MarkupNode markup ++ [ManualStepButton] ->
                 (motionListener (runApp a inputs),
                  permissionStatus (runApp a inputs))
                 = match firstSettlement inputs with
                   | Some Granted => (true, [StatusText "Motion Tracking: Enabled"])
                   | Some NotGranted =>
                       (false, [StatusText "Motion Tracking: Permission Denied"])
                   | Some RequestFailed | None =>
                       (false, map MarkupNode markup ++ [ManualStepButton])
                   end) as Hrun.
      { induction inputs as [| i rest IH]; intros a Hp Hl Hs.
        - simpl. rewrite Hl, Hs. reflexivity.
        - change (runApp a (i :: rest)) with (runApp (handleApp a i) rest).
          destruct i as [event t tRec ts | ts | g | w | r].
          1-4: (cbn [firstSettlement];
                match goal with
                | |- context [handleApp ?x ?i] =>
                    destruct (handleApp_panel_frame x i) as (El & Es & Ep);
                    [right; intros r; discriminate |];
                    apply IH; congruence
                end).
          cbn [firstSettlement]. simpl handleApp. rewrite Hp.
          destruct (runApp_settled rest (settlePermission a r)) as [-> ->];
            [destruct r; reflexivity |].
          destruct r; simpl; rewrite ?Hl, ?Hs; reflexivity. }
      apply Hrun; destruct stored; try discriminate; reflexivity.
Qed.

(** ** Fields the classifier never uses *)

Lemma handle_vectors tracker i :
  acceleration (detectionState (handle tracker i))
  = acceleration (detectionState tracker)
  /\ velocity (detectionState (handle tracker i))
     = velocity (detectionState tracker).
Proof.
  destruct i as [event t tRec |]; [| split; reflexivity].
  simpl. unfold processMotionData.
  destruct (eventAcceleration event) as [a |]; [| split; reflexivity].
  unfold detectStep. cbv zeta.
  destruct ((confidenceThreshold _ <? _) && _); split; reflexivity.
Qed.

(** X15. The [acceleration] and [velocity] vectors of the detection state
    are never written: whatever samples are processed they stay the zero
    vectors of the constructor, and each decision is made from the current
    sample and [lastPeakTime] alone. *)
Theorem acceleration_and_velocity_never_updated :
  forall saved inputs,
    let state := detectionState (run (newTracker saved) inputs) in
    acceleration state = zeroVec /\ velocity state = zeroVec.
Proof.
  intros saved inputs.
  assert (forall tracker,
             acceleration (detectionState (run tracker inputs))
             = acceleration (detectionState tracker)
             /\ velocity (detectionState (run tracker inputs))
                = velocity (detectionState tracker)) as H.
  { induction inputs as [| i rest IH]; intros tracker; [split; reflexivity |].
    change (run tracker (i :: rest)) with (run (handle tracker i) rest).
    destruct (IH (handle tracker i)) as [-> ->]. apply handle_vectors. }
  cbv zeta. destruct (H (newTracker saved)) as [-> ->]. split; reflexivity.
Qed.
